(** * POETRACIKAL API: credential, session and product handlers

    A shallow embedding of [main.py] and [schemas.py]: the credential
    helpers ([hash_password], [verify_password]), the session helpers
    ([create_session], [get_user_from_token]) and the HTTP handlers, over
    an explicit model of the document store (three collections kept in
    insertion order), of the operating system's entropy source and of the
    exceptions that escape a handler.

    Conventions.
    - A Python [str] is represented by the bytes of its UTF-8 encoding, as
      a Rocq [string]; [encode] is then the identity on the underlying
      bytes, concatenation and equality are those of the byte sequences, and
      the separator ["$"] (one byte, never part of a multi-byte sequence) is
      found at the same places.
    - [secrets.token_hex] and the driver's [ObjectId] generation read
      successive bytes of an entropy tape carried by the state.
    - A [float] is an IEEE-754 value, [spec_float]. *)

From Stdlib Require Import ZArith NArith String Ascii Bool Lia Arith List.
From Stdlib Require Import Init.Byte Strings.Byte Floats.SpecFloat Eqdep_dec.
Import ListNotations.

Local Open Scope Z_scope.

(** ** Bytes and hexadecimal text *)

Module Hex.

Definition digit (n : N) : ascii :=
  ascii_of_N (if (n <? 10)%N then 48 + n else 87 + n)%N.

(** [int(c, 16)] for one character: digits and both letter cases. *)
Definition value (c : ascii) : option N :=
  let n := N_of_ascii c in
  if ((48 <=? n) && (n <=? 57))%N then Some (n - 48)%N
  else if ((97 <=? n) && (n <=? 102))%N then Some (n - 87)%N
  else if ((65 <=? n) && (n <=? 70))%N then Some (n - 55)%N
  else None.

Definition of_byte (b : byte) : string :=
  let n := Byte.to_N b in
  String (digit (n / 16)) (String (digit (n mod 16)) EmptyString).

(** [bytes.hex()] *)
Fixpoint hexlify (bs : list byte) : string :=
  match bs with
  | [] => EmptyString
  | b :: rest => (of_byte b ++ hexlify rest)%string
  end.

(** [bytes.fromhex(s)] on text without white space; [None] stands for the
    [ValueError] of a character that is not a digit or of an odd length. *)
Fixpoint fromhex (s : string) : option (list byte) :=
  match s with
  | EmptyString => Some []
  | String _ EmptyString => None
  | String hi (String lo rest) =>
      match value hi, value lo, fromhex rest with
      | Some h, Some l, Some bs =>
          match Byte.of_N (16 * h + l) with
          | Some b => Some (b :: bs)
          | None => None
          end
      | _, _, _ => None
      end
  end.

End Hex.

(** ** SHA-256 (FIPS 180-4), the function behind [hashlib.sha256] *)

Module SHA256.

Definition mask32 : Z := 0xffffffff.
Definition add32 (x y : Z) : Z := (x + y) mod 2 ^ 32.
Definition rotr (n x : Z) : Z :=
  Z.lor (Z.shiftr x n) (Z.land (Z.shiftl x (32 - n)) mask32).
Definition shr (n x : Z) : Z := Z.shiftr x n.
Definition not32 (x : Z) : Z := Z.lxor x mask32.

Definition Ch (x y z : Z) : Z := Z.lxor (Z.land x y) (Z.land (not32 x) z).
Definition Maj (x y z : Z) : Z :=
  Z.lxor (Z.lxor (Z.land x y) (Z.land x z)) (Z.land y z).
Definition Sigma0 (x : Z) : Z := Z.lxor (Z.lxor (rotr 2 x) (rotr 13 x)) (rotr 22 x).
Definition Sigma1 (x : Z) : Z := Z.lxor (Z.lxor (rotr 6 x) (rotr 11 x)) (rotr 25 x).
Definition sigma0 (x : Z) : Z := Z.lxor (Z.lxor (rotr 7 x) (rotr 18 x)) (shr 3 x).
Definition sigma1 (x : Z) : Z := Z.lxor (Z.lxor (rotr 17 x) (rotr 19 x)) (shr 10 x).

(** Round constants, sixteen rounds to a row. *)
Definition K_00_15 : list Z :=
  [0x428a2f98; 0x71374491; 0xb5c0fbcf; 0xe9b5dba5;
   0x3956c25b; 0x59f111f1; 0x923f82a4; 0xab1c5ed5] ++
  [0xd807aa98; 0x12835b01; 0x243185be; 0x550c7dc3;
   0x72be5d74; 0x80deb1fe; 0x9bdc06a7; 0xc19bf174].
Definition K_16_31 : list Z :=
  [0xe49b69c1; 0xefbe4786; 0x0fc19dc6; 0x240ca1cc;
   0x2de92c6f; 0x4a7484aa; 0x5cb0a9dc; 0x76f988da] ++
  [0x983e5152; 0xa831c66d; 0xb00327c8; 0xbf597fc7;
   0xc6e00bf3; 0xd5a79147; 0x06ca6351; 0x14292967].
Definition K_32_47 : list Z :=
  [0x27b70a85; 0x2e1b2138; 0x4d2c6dfc; 0x53380d13;
   0x650a7354; 0x766a0abb; 0x81c2c92e; 0x92722c85] ++
  [0xa2bfe8a1; 0xa81a664b; 0xc24b8b70; 0xc76c51a3;
   0xd192e819; 0xd6990624; 0xf40e3585; 0x106aa070].
Definition K_48_63 : list Z :=
  [0x19a4c116; 0x1e376c08; 0x2748774c; 0x34b0bcb5;
   0x391c0cb3; 0x4ed8aa4a; 0x5b9cca4f; 0x682e6ff3] ++
  [0x748f82ee; 0x78a5636f; 0x84c87814; 0x8cc70208;
   0x90befffa; 0xa4506ceb; 0xbef9a3f7; 0xc67178f2].
Definition K : list Z :=
  Eval cbv in K_00_15 ++ K_16_31 ++ K_32_47 ++ K_48_63.

(** The eight working variables a..h, also the chaining value. *)
Record regs : Type := Regs
  { ra : Z; rb : Z; rc : Z; rd : Z; re : Z; rf : Z; rg : Z; rh : Z }.

Definition H0 : regs :=
  Regs 0x6a09e667 0xbb67ae85 0x3c6ef372 0xa54ff53a
       0x510e527f 0x9b05688c 0x1f83d9ab 0x5be0cd19.

(** Big-endian bytes of [x], [n] of them. *)
Fixpoint be_bytes (n : nat) (x : Z) : list Z :=
  match n with
  | O => []
  | S n' => (x / 256 ^ Z.of_nat n') mod 256 :: be_bytes n' x
  end.

Definition be_word (bs : list Z) : Z :=
  fold_left (fun acc b => acc * 256 + b) bs 0.

(** Padding: the bit 1, zero bits up to 56 modulo 64 bytes, and the length
    in bits on 64 bits. *)
Definition pad (msg : list Z) : list Z :=
  let l := Z.of_nat (length msg) in
  msg ++ [0x80] ++ repeat 0 (Z.to_nat ((55 - l) mod 64))
      ++ be_bytes 8 ((8 * l) mod 2 ^ 64).

Fixpoint chunks (size count : nat) (l : list Z) : list (list Z) :=
  match count with
  | O => []
  | S count' => firstn size l :: chunks size count' (skipn size l)
  end.

Definition blocks (padded : list Z) : list (list Z) :=
  chunks 64 (length padded / 64) padded.

Definition block_words (block : list Z) : list Z :=
  map be_word (chunks 4 16 block).

(** The message schedule as a window of sixteen words: its head is W_t,
    and the word that enters is W_(t+16). *)
Definition next_window (w : list Z) : list Z :=
  let w16 := add32 (add32 (add32 (sigma1 (nth 14 w 0)) (nth 9 w 0))
                          (sigma0 (nth 1 w 0))) (nth 0 w 0) in
  tl w ++ [w16].

Definition round (k wt : Z) (s : regs) : regs :=
  let t1 := add32 (add32 (add32 (add32 (rh s) (Sigma1 (re s)))
                                (Ch (re s) (rf s) (rg s))) k) wt in
  let t2 := add32 (Sigma0 (ra s)) (Maj (ra s) (rb s) (rc s)) in
  Regs (add32 t1 t2) (ra s) (rb s) (rc s) (add32 (rd s) t1) (re s) (rf s) (rg s).

Fixpoint rounds (ks w : list Z) (s : regs) : regs :=
  match ks with
  | [] => s
  | k :: ks' => rounds ks' (next_window w) (round k (nth 0 w 0) s)
  end.

Definition compress (h : regs) (block : list Z) : regs :=
  let s := rounds K (block_words block) h in
  Regs (add32 (ra h) (ra s)) (add32 (rb h) (rb s))
       (add32 (rc h) (rc s)) (add32 (rd h) (rd s))
       (add32 (re h) (re s)) (add32 (rf h) (rf s))
       (add32 (rg h) (rg s)) (add32 (rh h) (rh s)).

Definition byte_to_Z (b : byte) : Z := Z.of_N (Byte.to_N b).
Definition Z_to_byte (z : Z) : byte :=
  match Byte.of_N (Z.to_N (z mod 256)) with
  | Some b => b
  | None => x00
  end.

(** The final chaining value. *)
Definition sha256_regs (msg : list byte) : regs :=
  fold_left compress (blocks (pad (map byte_to_Z msg))) H0.

Definition regs_words (s : regs) : list Z :=
  [ra s; rb s; rc s; rd s; re s; rf s; rg s; rh s].

(** [hashlib.sha256(msg).digest()] *)
Definition digest (msg : list byte) : list byte :=
  map Z_to_byte (flat_map (be_bytes 4) (regs_words (sha256_regs msg))).

(** [hashlib.sha256(msg).hexdigest()] *)
Definition hexdigest (msg : list byte) : string := Hex.hexlify (digest msg).

End SHA256.

(** ** Python strings *)

Local Open Scope string_scope.

(** [bool(s)]: the empty string is the only false one. *)
Definition truthy (s : string) : bool :=
  match s with
  | EmptyString => false
  | String _ _ => true
  end.

(** [len(s)]: the code points, i.e. the bytes that do not continue a
    multi-byte sequence (10xxxxxx). *)
Fixpoint str_len (s : string) : nat :=
  match s with
  | EmptyString => O
  | String c rest =>
      let n := N_of_ascii c in
      if ((128 <=? n) && (n <? 192))%N then str_len rest else S (str_len rest)
  end.

(** [s.split(sep)] for a separator of one character. *)
Fixpoint split (sep : ascii) (s : string) : list string :=
  match s with
  | EmptyString => [EmptyString]
  | String c rest =>
      if Ascii.eqb c sep then EmptyString :: split sep rest
      else match split sep rest with
           | piece :: pieces => String c piece :: pieces
           | [] => [String c EmptyString]
           end
  end.

(** [c in s] for one character. *)
Fixpoint contains (c : ascii) (s : string) : bool :=
  match s with
  | EmptyString => false
  | String c' rest => Ascii.eqb c' c || contains c rest
  end.

(** [s.encode()] *)
Definition encode (s : string) : list byte := list_byte_of_string s.

(** ** bson.ObjectId: twelve bytes *)

Record ObjectId : Type := MkObjectId
  { binary : list byte;
    binary_len : Nat.eqb (List.length binary) 12 = true }.

Fixpoint bytes_eqb (x y : list byte) : bool :=
  match x, y with
  | [], [] => true
  | a :: x', b :: y' => Byte.eqb a b && bytes_eqb x' y'
  | _, _ => false
  end.

Definition oid_eqb (a b : ObjectId) : bool := bytes_eqb (binary a) (binary b).

Definition ObjectId_of_bytes (bs : list byte) : option ObjectId :=
  match Nat.eqb (List.length bs) 12 as ok
        return Nat.eqb (List.length bs) 12 = ok -> option ObjectId with
  | true => fun H => Some (MkObjectId bs H)
  | false => fun _ => None
  end eq_refl.

(** [str(oid)] *)
Definition ObjectId_str (o : ObjectId) : string := Hex.hexlify (binary o).

(** ** Documents of the three collections

    A field the code reads with [.get] may be missing from a stored
    document; a field it reads with [d["k"]] is there. *)

Module User.
Record doc : Type := Doc
  { _id : ObjectId;
    name : string;
    email : string;
    password_hash : option string;
    role : option string;
    is_active : bool }.

(** schemas.User, validated *)
Record model : Type := Model
  { m_name : string;
    m_email : string;
    m_password_hash : string;
    m_role : string;
    m_is_active : bool }.

Definition store (m : model) (oid : ObjectId) : doc :=
  Doc oid (m_name m) (m_email m) (Some (m_password_hash m)) (Some (m_role m))
      (m_is_active m).
End User.

Module Product.
(** The keys of schemas.Product. *)
Record fields : Type := Fields
  { name : string;
    description : option string;
    price : spec_float;
    unit : option string;
    image : option string;
    in_stock : bool }.

Record doc : Type := Doc
  { _id : ObjectId;
    data : fields }.

(** One key of a [$set] document with its value. *)
Inductive field : Type :=
| Name (v : string)
| Price (v : spec_float)
| Unit (v : string)
| Description (v : string)
| Image (v : string)
| InStock (v : bool).

Definition set_field (d : fields) (f : field) : fields :=
  match f with
  | Name v => Fields v (description d) (price d) (unit d) (image d) (in_stock d)
  | Price v => Fields (name d) (description d) v (unit d) (image d) (in_stock d)
  | Unit v => Fields (name d) (description d) (price d) (Some v) (image d) (in_stock d)
  | Description v => Fields (name d) (Some v) (price d) (unit d) (image d) (in_stock d)
  | Image v => Fields (name d) (description d) (price d) (unit d) (Some v) (in_stock d)
  | InStock v => Fields (name d) (description d) (price d) (unit d) (image d) v
  end.

(** [{"$set": update}] applied to a document: [_id] stays. *)
Definition set_fields (update : list field) (d : doc) : doc :=
  Doc (_id d) (fold_left set_field update (data d)).
End Product.

Module Session.
Record doc : Type := Doc
  { _id : ObjectId;
    user_id : string;
    token : string }.
End Session.

Record Database : Type := MkDatabase
  { user : list User.doc;
    product : list Product.doc;
    session : list Session.doc }.

(** ** The state a request runs in, and what a handler can raise *)

Inductive exn : Type :=
| HTTPException (status_code : Z) (detail : string)
| ValueError
| InvalidId
| AttributeError
| ValidationError
| DuplicateKeyError.

Inductive outcome (A : Type) : Type :=
| Return (a : A)
| Raise (e : exn).
Arguments Return {A} a.
Arguments Raise {A} e.

Inductive collection_name : Type := c_user | c_product | c_session.

(** A write command sent to the store. *)
Inductive write : Type :=
| InsertOne (c : collection_name)
| UpdateOne (c : collection_name)
| DeleteOne (c : collection_name).

Record World : Type := MkWorld
  { db : Database;
    entropy : nat -> byte;   (* what the system's random source will give *)
    cursor : nat;            (* how much of it has been read *)
    journal : list write }.  (* the write commands sent so far, oldest first *)

Definition M (A : Type) : Type := World -> outcome A * World.

Definition ret {A} (a : A) : M A := fun w => (Return a, w).
Definition raise {A} (e : exn) : M A := fun w => (Raise e, w).
Definition bind {A B} (m : M A) (k : A -> M B) : M B :=
  fun w =>
    match m w with
    | (Return a, w') => k a w'
    | (Raise e, w') => (Raise e, w')
    end.

Declare Scope py_scope.
Delimit Scope py_scope with py.
Notation "x <- m ;; k" := (bind m (fun x => k))
  (at level 100, m at next level, right associativity) : py_scope.
Notation "m ;;; k" := (bind m (fun _ => k))
  (at level 100, right associativity) : py_scope.
Local Open Scope py_scope.

(** [try: m except Exception: return fallback] *)
Definition try_except {A} (m : M A) (fallback : A) : M A :=
  fun w =>
    match m w with
    | (Return a, w') => (Return a, w')
    | (Raise _, w') => (Return fallback, w')
    end.

(** The next [n] bytes of the random source, and the state once they are
    read. *)
Definition pending (n : nat) (w : World) : list byte :=
  map (entropy w) (seq (cursor w) n).
Definition advance (n : nat) (w : World) : World :=
  MkWorld (db w) (entropy w) (cursor w + n) (journal w).

(** [secrets.token_bytes(n)] *)
Definition token_bytes (n : nat) : M (list byte) :=
  fun w => (Return (pending n w), advance n w).

(** [secrets.token_hex(n)] *)
Definition token_hex (n : nat) : M string :=
  bs <- token_bytes n ;; ret (Hex.hexlify bs).

(** [ObjectId()]: a new identifier, twelve bytes from the environment. *)
Definition new_ObjectId : M ObjectId :=
  fun w => (Return (MkObjectId (pending 12 w) eq_refl), advance 12 w).

(** [ObjectId(s)]: twenty-four hexadecimal digits, or [InvalidId]. The
    driver's [fromhex] also skips white space between pairs of digits, so
    that it reads some texts of twenty-four characters as an identifier of
    fewer than twelve bytes, which no document has; here such a text is
    [InvalidId], and no statement below is about one in particular. *)
Definition ObjectId_parse (s : string) : M ObjectId :=
  if Nat.eqb (str_len s) 24 then
    match Hex.fromhex s with
    | Some bs =>
        match ObjectId_of_bytes bs with
        | Some o => ret o
        | None => raise InvalidId
        end
    | None => raise InvalidId
    end
  else raise InvalidId.

(** ** The store: pymongo's collection methods

    A collection is the list of its documents, oldest first; a query
    without an index returns the first match in that order. *)

Record Collection (D : Type) : Type := MkCollection
  { coll_name : collection_name;
    docs : Database -> list D;
    with_docs : list D -> Database -> Database;
    doc_id : D -> ObjectId }.
Arguments coll_name {D} _.
Arguments docs {D} _ _.
Arguments with_docs {D} _ _ _.
Arguments doc_id {D} _ _.

Definition db_user : Collection User.doc :=
  MkCollection User.doc c_user user
    (fun l d => MkDatabase l (product d) (session d)) User._id.
Definition db_product : Collection Product.doc :=
  MkCollection Product.doc c_product product
    (fun l d => MkDatabase (user d) l (session d)) Product._id.
Definition db_session : Collection Session.doc :=
  MkCollection Session.doc c_session session
    (fun l d => MkDatabase (user d) (product d) l) Session._id.

Definition send (c : write) : M unit :=
  fun w => (Return tt, MkWorld (db w) (entropy w) (cursor w) (journal w ++ [c])).

Definition put_docs {D} (C : Collection D) (l : list D) : M unit :=
  fun w =>
    (Return tt, MkWorld (with_docs C l (db w)) (entropy w) (cursor w) (journal w)).

(** The query [{"_id": oid}] *)
Definition by_id {D} (C : Collection D) (oid : ObjectId) : D -> bool :=
  fun d => oid_eqb (doc_id C d) oid.

(** [db[C].find_one(query)] *)
Definition find_one {D} (C : Collection D) (query : D -> bool) : M (option D) :=
  fun w => (Return (find query (docs C (db w))), w).

(** [db[C].find()] *)
Definition find_all {D} (C : Collection D) : M (list D) :=
  fun w => (Return (docs C (db w)), w).

(** [db[C].insert_one(document)] for a document without [_id]: the driver
    gives it a new one, and the unique index on [_id] refuses a duplicate.
    Returns [inserted_id]. *)
Definition insert_one {D} (C : Collection D) (document : ObjectId -> D)
  : M ObjectId :=
  oid <- new_ObjectId ;;
  send (InsertOne (coll_name C)) ;;;
  present <- find_one C (by_id C oid) ;;
  match present with
  | Some _ => raise DuplicateKeyError
  | None =>
      l <- find_all C ;;
      put_docs C (l ++ [document oid]) ;;;
      ret oid
  end.

Fixpoint update_first {D} (query : D -> bool) (f : D -> D) (l : list D)
  : list D * nat :=
  match l with
  | [] => ([], O)
  | d :: rest =>
      if query d then (f d :: rest, 1%nat)
      else let (rest', n) := update_first query f rest in (d :: rest', n)
  end.

Fixpoint delete_first {D} (query : D -> bool) (l : list D) : list D * nat :=
  match l with
  | [] => ([], O)
  | d :: rest =>
      if query d then (rest, 1%nat)
      else let (rest', n) := delete_first query rest in (d :: rest', n)
  end.

(** [db[C].update_one(query, {"$set": ...})]; returns [matched_count]. *)
Definition update_one {D} (C : Collection D) (query : D -> bool) (f : D -> D)
  : M nat :=
  send (UpdateOne (coll_name C)) ;;;
  l <- find_all C ;;
  let (l', matched) := update_first query f l in
  put_docs C l' ;;;
  ret matched.

(** [db[C].delete_one(query)]; returns [deleted_count]. *)
Definition delete_one {D} (C : Collection D) (query : D -> bool) : M nat :=
  send (DeleteOne (coll_name C)) ;;;
  l <- find_all C ;;
  let (l', deleted) := delete_first query l in
  put_docs C l' ;;;
  ret deleted.

(** Modelled from the spec: [create_document] of database.py, which is not
    among the sources. The storage accessor is a thin wrapper issuing create
    operations against named collections, and registration and product
    creation insert one record through it and get its identifier back as a
    string. *)
Definition create_document {D} (C : Collection D) (document : ObjectId -> D)
  : M string :=
  oid <- insert_one C document ;;
  ret (ObjectId_str oid).

(** Modelled from the spec: [get_documents] of database.py, which is not
    among the sources: the product list is a full collection scan. *)
Definition get_documents {D} (C : Collection D) : M (list D) := find_all C.

(** ** schemas.py: what constructing a model checks *)

Definition zero : spec_float := S754_zero false.

(** [Product(name=.., description=.., price=.., ..)]: [price] has [ge=0]. *)
Definition ProductSchema (name : string) (description : option string)
    (price : spec_float) (unit image : option string) (in_stock : bool)
  : M Product.fields :=
  if SFleb zero price
  then ret (Product.Fields name description price unit image in_stock)
  else raise ValidationError.

(** [User(name=.., email=.., password_hash=.., role=..)]: [name] has
    [min_length=2], [is_active] defaults to [True]. The address was
    validated with the request and is not checked again here. *)
Definition UserSchema (name email password_hash role : string) : M User.model :=
  if Nat.leb 2 (str_len name)
  then ret (User.Model name email password_hash role true)
  else raise ValidationError.

(** ** main.py: request models *)

Module RegisterRequest.
Record t : Type := Make { name : string; email : string; password : string }.
End RegisterRequest.

Module LoginRequest.
Record t : Type := Make { email : string; password : string }.
End LoginRequest.

Module ProductCreateRequest.
Record t : Type := Make
  { name : string;
    price : spec_float;
    unit : option string;
    description : option string;
    image : option string;
    in_stock : bool }.
End ProductCreateRequest.

Module ProductUpdateRequest.
Record t : Type := Make
  { name : option string;
    price : option spec_float;
    unit : option string;
    description : option string;
    image : option string;
    in_stock : option bool }.

(** [{k: v for k, v in payload.model_dump().items() if v is not None}] *)
Definition present {A} (key : A -> Product.field) (v : option A)
  : list Product.field :=
  match v with
  | Some x => [key x]
  | None => []
  end.

Definition update_data (payload : t) : list Product.field :=
  present Product.Name (name payload) ++
  present Product.Price (price payload) ++
  present Product.Unit (unit payload) ++
  present Product.Description (description payload) ++
  present Product.Image (image payload) ++
  present Product.InStock (in_stock payload).
End ProductUpdateRequest.

(** ** main.py: response bodies *)

Module Out.
Record user : Type := User
  { user_id : string; user_name : string; user_email : string; user_role : string }.
Record product : Type := Product { product_id : string; product_data : Product.fields }.
End Out.

Inductive body : Type :=
| Message (message : string)
| Diagnostics
| TokenUser (token : string) (user : Out.user)
| Products (result : list Out.product)
| Created (id : string) (payload : ProductCreateRequest.t)
| Updated (doc : Out.product)
| Ok.

(** [d["id"] = str(d.pop("_id"))] *)
Definition externalize (d : Product.doc) : Out.product :=
  Out.Product (ObjectId_str (Product._id d)) (Product.data d).

(** ** main.py: utilities *)

Definition hash_password (password : string) (salt : option string) : M string :=
  salt <- match salt with
          | Some s => if truthy s then ret s else token_hex 8
          | None => token_hex 8
          end ;;
  ret (salt ++ "$" ++ SHA256.hexdigest (encode (salt ++ password))).

Definition verify_password (password stored : string) : M bool :=
  try_except
    match split "$" stored with
    | [salt; h] =>
        again <- hash_password password (Some salt) ;;
        ret (String.eqb again stored)
    | _ => raise ValueError
    end
    false.

(** ** main.py: auth helpers *)

Definition get_user_by_email (email : string) : M (option User.doc) :=
  find_one db_user (fun u => String.eqb (User.email u) email).

Definition create_session (user_id : string) : M string :=
  token <- token_hex 24 ;;
  insert_one db_session (fun oid => Session.Doc oid user_id token) ;;;
  ret token.

Definition get_user_from_token (token : string) : M (option User.doc) :=
  sess <- find_one db_session (fun s => String.eqb (Session.token s) token) ;;
  match sess with
  | None => ret None
  | Some sess =>
      oid <- ObjectId_parse (Session.user_id sess) ;;
      find_one db_user (by_id db_user oid)
  end.

(** [get_user_from_token(token) if token else None] *)
Definition user_of (token : option string) : M (option User.doc) :=
  match token with
  | Some t => if truthy t then get_user_from_token t else ret None
  | None => ret None
  end.

(** The negation of [not user or user.get("role") != "admin"] *)
Definition is_admin (user : option User.doc) : bool :=
  match user with
  | Some u =>
      match User.role u with
      | Some r => String.eqb r "admin"
      | None => false
      end
  | None => false
  end.

(** ** main.py: endpoints *)

Definition read_root : M body := ret (Message "POETRACIKAL API ready").

(** The report depends on the process environment, which is outside this
    model; the handler sends no write. *)
Definition test_database : M body := ret Diagnostics.

Definition register (payload : RegisterRequest.t) : M body :=
  existing <- get_user_by_email (RegisterRequest.email payload) ;;
  match existing with
  | Some _ => raise (HTTPException 400 "Email sudah terdaftar")
  | None =>
      pwd <- hash_password (RegisterRequest.password payload) None ;;
      user <- UserSchema (RegisterRequest.name payload)
                (RegisterRequest.email payload) pwd "customer" ;;
      user_id <- create_document db_user (User.store user) ;;
      token <- create_session user_id ;;
      ret (TokenUser token
             (Out.User user_id (User.m_name user) (User.m_email user)
                (User.m_role user)))
  end.

Definition wrong_login : exn := HTTPException 401 "Email atau password salah".

Definition login (payload : LoginRequest.t) : M body :=
  user <- get_user_by_email (LoginRequest.email payload) ;;
  match user with
  | None => raise wrong_login
  | Some user =>
      ok <- verify_password (LoginRequest.password payload)
              (match User.password_hash user with Some h => h | None => "" end) ;;
      if ok then
        token <- create_session (ObjectId_str (User._id user)) ;;
        ret (TokenUser token
               (Out.User (ObjectId_str (User._id user)) (User.name user)
                  (User.email user)
                  (match User.role user with Some r => r | None => "customer" end)))
      else raise wrong_login
  end.

Definition list_products : M body :=
  docs <- get_documents db_product ;;
  ret (Products (map externalize docs)).

Definition create_product (payload : ProductCreateRequest.t)
    (token : option string) : M body :=
  user <- user_of token ;;
  if negb (is_admin user)
  then raise (HTTPException 403 "Hanya admin yang dapat menambah produk")
  else
    prod <- ProductSchema (ProductCreateRequest.name payload)
              (ProductCreateRequest.description payload)
              (ProductCreateRequest.price payload)
              (ProductCreateRequest.unit payload)
              (ProductCreateRequest.image payload)
              (ProductCreateRequest.in_stock payload) ;;
    prod_id <- create_document db_product (fun oid => Product.Doc oid prod) ;;
    ret (Created prod_id payload).

Definition update_product (product_id : string)
    (payload : ProductUpdateRequest.t) (token : option string) : M body :=
  user <- user_of token ;;
  if negb (is_admin user)
  then raise (HTTPException 403 "Hanya admin yang dapat mengubah produk")
  else
    let update_data := ProductUpdateRequest.update_data payload in
    match update_data with
    | [] => raise (HTTPException 400 "Tidak ada perubahan")
    | _ :: _ =>
        oid <- ObjectId_parse product_id ;;
        matched_count <- update_one db_product (by_id db_product oid)
                           (Product.set_fields update_data) ;;
        if Nat.eqb matched_count 0
        then raise (HTTPException 404 "Produk tidak ditemukan")
        else
          oid <- ObjectId_parse product_id ;;
          doc <- find_one db_product (by_id db_product oid) ;;
          match doc with
          | Some doc => ret (Updated (externalize doc))
          | None => raise AttributeError
          end
    end.

Definition delete_product (product_id : string) (token : option string)
  : M body :=
  user <- user_of token ;;
  if negb (is_admin user)
  then raise (HTTPException 403 "Hanya admin yang dapat menghapus produk")
  else
    oid <- ObjectId_parse product_id ;;
    deleted_count <- delete_one db_product (by_id db_product oid) ;;
    if Nat.eqb deleted_count 0
    then raise (HTTPException 404 "Produk tidak ditemukan")
    else ret Ok.

(** ** The routes, and what the client sees *)

Inductive Request : Type :=
| GET_root
| GET_test
| POST_auth_register (payload : RegisterRequest.t)
| POST_auth_login (payload : LoginRequest.t)
| GET_products
| POST_products (payload : ProductCreateRequest.t) (token : option string)
| PUT_products (product_id : string) (payload : ProductUpdateRequest.t)
    (token : option string)
| DELETE_products (product_id : string) (token : option string).

Definition app (r : Request) : M body :=
  match r with
  | GET_root => read_root
  | GET_test => test_database
  | POST_auth_register payload => register payload
  | POST_auth_login payload => login payload
  | GET_products => list_products
  | POST_products payload token => create_product payload token
  | PUT_products product_id payload token => update_product product_id payload token
  | DELETE_products product_id token => delete_product product_id token
  end.

(** A float that JSON can carry: the framework renders a returned body with
    [allow_nan] off, so an infinity or a NaN in it is a [ValueError] raised
    after the handler has returned. *)
Definition finite (x : spec_float) : bool :=
  match x with
  | S754_zero _ | S754_finite _ _ _ => true
  | S754_infinity _ | S754_nan => false
  end.

Definition serializable (b : body) : bool :=
  match b with
  | Products result =>
      forallb (fun p => finite (Product.price (Out.product_data p))) result
  | Created _ payload => finite (ProductCreateRequest.price payload)
  | Updated doc => finite (Product.price (Out.product_data doc))
  | Message _ | Diagnostics | TokenUser _ _ | Ok => true
  end.

(** The status line: a body that is returned and rendered is a 200, one
    that cannot be rendered a 500; an [HTTPException] gives its own code, any
    other exception that leaves a handler is a 500. *)
Definition status_code_of (r : outcome body) : Z :=
  match r with
  | Return b => if serializable b then 200 else 500
  | Raise (HTTPException s _) => s
  | Raise _ => 500
  end.

(** The write commands a computation sends, started in [w]. *)
Definition writes_of {A} (m : M A) (w : World) : list write :=
  skipn (List.length (journal w)) (journal (snd (m w))).

(** ** Vocabulary of the statements *)

(** The stored form of a password under a salt, as the specification
    writes it: [salt + "$" + hex(SHA-256(salt + password))]. *)
Definition stored_form (salt password : string) : string :=
  salt ++ "$" ++ SHA256.hexdigest (encode (salt ++ password)).

(** The salt [token_hex(8)] gives in a state. *)
Definition fresh_salt (w : World) : string := Hex.hexlify (pending 8 w).

(** The 32-bit words, and the chaining value read as one number in base
    2^32. *)
Definition word (x : Z) : Prop := 0 <= x < 2 ^ 32.
Definition regs_ok (s : SHA256.regs) : Prop :=
  Forall word (SHA256.regs_words s).
Definition regs_num (s : SHA256.regs) : Z :=
  fold_left (fun acc x => acc * 2 ^ 32 + x) (SHA256.regs_words s) 0.

(** How many values a digest can take. *)
Definition digest_space : nat := Z.to_nat (2 ^ 256).

(** Sample states: an empty store, read with two different random sources. *)
Definition tape0 : nat -> byte :=
  fun i => SHA256.Z_to_byte (Z.of_nat i * 37 + 11).
Definition w0 : World := MkWorld (MkDatabase [] [] []) tape0 0 [].
Definition w0' : World := MkWorld (MkDatabase [] [] []) (fun _ => x00) 0 [].

(** A sample store: Bob, whose role was set to admin in the store, holds a
    session; one product is on sale. *)
Definition oid_of (b : byte) : ObjectId := MkObjectId (repeat b 12) eq_refl.
Definition twelve_and_a_half : spec_float := S754_finite false 7036874417766400 (-49).
Definition minus_one : spec_float := S754_finite true 4503599627370496 (-52).
Definition infinity : spec_float := S754_infinity false.
Definition bob : User.doc :=
  User.Doc (oid_of x01) "Bob" "bob@example.com"
    (Some "abcd$2ceb3cb26c80625e687d1fe56e0ffb673aae4bb5ec84f5773dd5a4337d7776ac")
    (Some "admin") true.
Definition rice : Product.doc :=
  Product.Doc (oid_of x02)
    (Product.Fields "Rice" None twelve_and_a_half None None true).
Definition alice : User.doc :=
  User.Doc (oid_of x04) "Alice" "alice@example.com"
    (Some "0b30557a9fc4e90e$5920396dbb7601388d8ca1325a6a5b13e62ec7fc806dfe4fce1ef4de4bc9b61e")
    (Some "customer") true.
Definition bob_session : Session.doc :=
  Session.Doc (oid_of x03) (ObjectId_str (oid_of x01)) "b0b".
Definition alice_session : Session.doc :=
  Session.Doc (oid_of x05) (ObjectId_str (oid_of x04)) "a11ce".
Definition w_shop : World :=
  MkWorld (MkDatabase [bob; alice] [rice] [bob_session; alice_session]) tape0 0 [].

(** The [_id] index of a collection: no two documents share one. *)
Definition unique_ids {D} (C : Collection D) (d : Database) : Prop :=
  NoDup (map (fun x => binary (doc_id C x)) (docs C d)).

(** Two stores in which an identifier about to be drawn is already there:
    in [w_clash] a session of Bob holds the token the next login will draw;
    in [w_partial] a session has the [_id] that a registration will draw for
    its own session, after the eight bytes of the salt, the twelve of the
    user's [_id] and the twenty-four of the token. *)
Definition w_clash : World :=
  MkWorld
    (MkDatabase [bob; alice] []
       [Session.Doc (oid_of x03) (ObjectId_str (oid_of x01))
          (Hex.hexlify (map tape0 (seq 0 24)))])
    tape0 0 [].
Definition w_clash_id : World :=
  MkWorld
    (MkDatabase [bob; alice] []
       [Session.Doc (MkObjectId (map tape0 (seq 24 12)) eq_refl)
          (ObjectId_str (oid_of x01)) "b0b"])
    tape0 0 [].

(** [m] sends at most [n] write commands, whatever the state. *)
Definition sends {A} (m : M A) (n : nat) : Prop :=
  forall w, exists ws,
    journal (snd (m w)) = (journal w ++ ws)%list /\ (List.length ws <= n)%nat.

(** [m] leaves the store as it found it. *)
Definition reads {A} (m : M A) : Prop :=
  forall w, db (snd (m w)) = db w.


(** The three [_id] indexes together. *)
Definition store_ok (d : Database) : Prop :=
  unique_ids db_user d /\ unique_ids db_product d /\ unique_ids db_session d.

(** [m] keeps the indexes. *)
Definition keeps {A} (m : M A) : Prop :=
  forall w, store_ok (db w) -> store_ok (db (snd (m w))).

Definition alice_request : RegisterRequest.t :=
  RegisterRequest.Make "Alice" "alice@example.com" "hunter2".

(** A password for every length. *)
Fixpoint pw (n : nat) : string :=
  match n with
  | O => EmptyString
  | S n' => String "a" (pw n')
  end.

(** ** Vocabulary of the further statements *)

(** No document of the collection has the identifier. *)
Definition new_id {D} (C : Collection D) (oid : ObjectId) (d : Database) : Prop :=
  find (by_id C oid) (docs C d) = None.

(** What a registration started in [w] draws after the eight bytes of the
    salt: the user's [_id], the token, the session's [_id]. *)
Definition register_user_id (w : World) : ObjectId :=
  MkObjectId (pending 12 (advance 8 w)) eq_refl.
Definition register_token (w : World) : string :=
  Hex.hexlify (pending 24 (advance 12 (advance 8 w))).
Definition register_session_id (w : World) : ObjectId :=
  MkObjectId (pending 12 (advance 24 (advance 12 (advance 8 w)))) eq_refl.

(** What a login started in [w] draws: the token, the session's [_id]. *)
Definition login_token (w : World) : string := Hex.hexlify (pending 24 w).
Definition login_session_id (w : World) : ObjectId :=
  MkObjectId (pending 12 (advance 24 w)) eq_refl.

(** The user document a registration stores. *)
Definition registered (payload : RegisterRequest.t) (w : World) : User.doc :=
  User.Doc (register_user_id w) (RegisterRequest.name payload)
    (RegisterRequest.email payload)
    (Some (stored_form (fresh_salt w) (RegisterRequest.password payload)))
    (Some "customer") true.

Definition customer (u : User.doc) : Prop :=
  User.role u = Some "customer" /\ User.is_active u = true.

(** [m] only appends to the user and session collections, and the users it
    appends are customers. *)
Definition extends {A} (m : M A) : Prop :=
  forall w, exists us ss,
    user (db (snd (m w))) = (user (db w) ++ us)%list /\
    session (db (snd (m w))) = (session (db w) ++ ss)%list /\
    Forall customer us.

(** The fields of a product after [$set] with the fields of the body that
    are not null. *)
Definition merged (p : ProductUpdateRequest.t) (f : Product.fields) : Product.fields :=
  Product.Fields
    (match ProductUpdateRequest.name p with Some v => v | None => Product.name f end)
    (match ProductUpdateRequest.description p with
     | Some v => Some v | None => Product.description f end)
    (match ProductUpdateRequest.price p with Some v => v | None => Product.price f end)
    (match ProductUpdateRequest.unit p with Some v => Some v | None => Product.unit f end)
    (match ProductUpdateRequest.image p with Some v => Some v | None => Product.image f end)
    (match ProductUpdateRequest.in_stock p with
     | Some v => v | None => Product.in_stock f end).

(** The fields of the body of a product creation, in the order of the
    schema. *)
Definition fields_of (p : ProductCreateRequest.t) : Product.fields :=
  Product.Fields (ProductCreateRequest.name p) (ProductCreateRequest.description p)
    (ProductCreateRequest.price p) (ProductCreateRequest.unit p)
    (ProductCreateRequest.image p) (ProductCreateRequest.in_stock p).

(** The token a request to a protected route carries. *)
Definition caller (r : Request) : option (option string) :=
  match r with
  | POST_products _ token => Some token
  | PUT_products _ _ token => Some token
  | DELETE_products _ token => Some token
  | _ => None
  end.

(** [m] leaves the product collection as it found it. *)
Definition keeps_products {A} (m : M A) : Prop :=
  forall w, product (db (snd (m w))) = product (db w).

(** [m] leaves a part of the store as it found it. *)
Definition preserves {A X} (part : Database -> X) (m : M A) : Prop :=
  forall w, part (db (snd (m w))) = part (db w).

(** A session refers to a stored user, by the text of the user's [_id]. *)
Definition session_ok (d : Database) (s : Session.doc) : Prop :=
  exists u, In u (user d) /\ Session.user_id s = ObjectId_str (User._id u).
Definition sessions_refer (d : Database) : Prop :=
  Forall (session_ok d) (session d).

(** A store with one user whose document has neither a hash nor a role. *)
Definition carol : User.doc :=
  User.Doc (oid_of x06) "Carol" "carol@example.com" None None true.
Definition w_carol : World := MkWorld (MkDatabase [carol] [] []) tape0 0 [].

(** How many times a character occurs. *)
Fixpoint count (c : ascii) (s : string) : nat :=
  match s with
  | EmptyString => O
  | String c' rest => if Ascii.eqb c' c then S (count c rest) else count c rest
  end.

(** * Properties *)

(** ** SHA-256: the test vectors of FIPS 180-4 (one block, the empty
    message, two blocks) *)

Example sha256_abc :
  SHA256.hexdigest (list_byte_of_string "abc")
  = "ba7816bf8f01cfea414140de5dae2223b00361a396177a9cb410ff61f20015ad".
Proof. vm_compute. reflexivity. Qed.

Example sha256_empty :
  SHA256.hexdigest []
  = "e3b0c44298fc1c149afbf4c8996fb92427ae41e4649b934ca495991b7852b855".
Proof. vm_compute. reflexivity. Qed.

Example sha256_two_blocks :
  SHA256.hexdigest
    (list_byte_of_string "abcdbcdecdefdefgefghfghighijhijkijkljklmklmnlmnomnopnopq")
  = "248d6a61d20638b8e5c026930c3e6039a33ce45964ff2167f6ecedd419db06c1".
Proof. vm_compute. reflexivity. Qed.

(** ** Hexadecimal text *)

Lemma fromhex_of_byte (b : byte) (s : string) :
  Hex.fromhex (Hex.of_byte b ++ s)
  = match Hex.fromhex s with Some bs => Some (b :: bs) | None => None end.
Proof.
  destruct b; cbn; destruct (Hex.fromhex s); reflexivity.
Qed.

Lemma fromhex_hexlify (bs : list byte) : Hex.fromhex (Hex.hexlify bs) = Some bs.
Proof.
  induction bs as [|b bs IH]; [reflexivity|].
  cbn [Hex.hexlify]. rewrite fromhex_of_byte, IH. reflexivity.
Qed.

Lemma hexlify_inj (x y : list byte) : Hex.hexlify x = Hex.hexlify y -> x = y.
Proof.
  intros E. apply (f_equal Hex.fromhex) in E.
  rewrite !fromhex_hexlify in E. congruence.
Qed.

Lemma contains_app (c : ascii) (a b : string) :
  contains c (a ++ b) = contains c a || contains c b.
Proof.
  induction a as [|x a IH]; cbn; [reflexivity|].
  rewrite IH. apply orb_assoc.
Qed.

Lemma of_byte_no_dollar (b : byte) : contains "$" (Hex.of_byte b) = false.
Proof. destruct b; reflexivity. Qed.

Lemma hexlify_no_dollar (bs : list byte) : contains "$" (Hex.hexlify bs) = false.
Proof.
  induction bs as [|b bs IH]; [reflexivity|].
  cbn [Hex.hexlify]. now rewrite contains_app, of_byte_no_dollar, IH.
Qed.

Lemma hexlify_truthy (b : byte) (bs : list byte) :
  truthy (Hex.hexlify (b :: bs)) = true.
Proof. reflexivity. Qed.

Lemma str_len_hexlify (bs : list byte) :
  str_len (Hex.hexlify bs) = (2 * List.length bs)%nat.
Proof.
  induction bs as [|b bs IH]; [reflexivity|].
  cbn [Hex.hexlify List.length].
  replace (2 * S (List.length bs))%nat with (S (S (2 * List.length bs))) by lia.
  rewrite <- IH. destruct b; reflexivity.
Qed.

(** ** [split] *)

Lemma split_without (sep : ascii) (s : string) :
  contains sep s = false -> split sep s = [s].
Proof.
  induction s as [|c s IH]; cbn; [reflexivity|].
  intros H. apply orb_false_iff in H as [Hc Hs].
  rewrite Hc, (IH Hs). reflexivity.
Qed.

Lemma split_once (sep : ascii) (a b : string) :
  contains sep a = false -> contains sep b = false ->
  split sep (a ++ String sep b) = [a; b].
Proof.
  intros Ha Hb. induction a as [|c a IH]; cbn.
  - rewrite Ascii.eqb_refl, (split_without _ _ Hb). reflexivity.
  - cbn in Ha. apply orb_false_iff in Ha as [Hc Ha].
    rewrite Hc, (IH Ha). reflexivity.
Qed.

(** ** Credentials *)

Lemma app_inv_head_string (a x y : string) : a ++ x = a ++ y -> x = y.
Proof.
  induction a as [|c a IH]; cbn; [auto|].
  intros E. injection E as E. auto.
Qed.

Lemma hash_password_salted (password salt : string) (w : World) :
  truthy salt = true ->
  hash_password password (Some salt) w = (Return (stored_form salt password), w).
Proof.
  intros H. unfold hash_password, bind. rewrite H. reflexivity.
Qed.

Lemma hash_password_unsalted (password : string) (w : World) :
  hash_password password None w
  = (Return (stored_form (fresh_salt w) password), advance 8 w).
Proof. reflexivity. Qed.

Lemma hash_password_empty_salt (password : string) (w : World) :
  hash_password password (Some "") w
  = (Return (stored_form (fresh_salt w) password), advance 8 w).
Proof. reflexivity. Qed.

Lemma fresh_salt_truthy (w : World) : truthy (fresh_salt w) = true.
Proof. reflexivity. Qed.

Lemma fresh_salt_no_dollar (w : World) : contains "$" (fresh_salt w) = false.
Proof. apply hexlify_no_dollar. Qed.

Lemma split_stored_form (salt password : string) :
  contains "$" salt = false ->
  split "$" (stored_form salt password)
  = [salt; SHA256.hexdigest (encode (salt ++ password))].
Proof.
  intros H. unfold stored_form. apply split_once; [exact H|].
  apply hexlify_no_dollar.
Qed.

Lemma stored_form_eqb (salt p q : string) :
  String.eqb (stored_form salt p) (stored_form salt q)
  = String.eqb (SHA256.hexdigest (encode (salt ++ p)))
               (SHA256.hexdigest (encode (salt ++ q))).
Proof.
  unfold stored_form.
  generalize (SHA256.hexdigest (encode (salt ++ p))) as x.
  generalize (SHA256.hexdigest (encode (salt ++ q))) as y.
  intros y x. destruct (String.eqb_spec x y) as [->|N].
  - apply String.eqb_refl.
  - apply String.eqb_neq. intros E. apply N.
    apply app_inv_head_string in E. cbn in E. now injection E.
Qed.

(** Checking a password against a stored form made with a salt that is not
    empty and has no separator compares the two salted digests, and reads no
    entropy. *)
Lemma verify_password_stored_form (salt p q : string) (w : World) :
  truthy salt = true -> contains "$" salt = false ->
  verify_password q (stored_form salt p) w
  = (Return (String.eqb (SHA256.hexdigest (encode (salt ++ q)))
                        (SHA256.hexdigest (encode (salt ++ p)))), w).
Proof.
  intros Ht Hc. unfold verify_password, try_except.
  rewrite (split_stored_form _ _ Hc). unfold bind.
  rewrite (hash_password_salted _ _ _ Ht). cbn [ret].
  now rewrite stored_form_eqb.
Qed.

(** ** Digests are finitely many *)

Lemma hit_or_miss (f : nat -> nat) (v n : nat) :
  (exists i, (i < n)%nat /\ f i = v) \/ (forall i, (i < n)%nat -> f i <> v).
Proof.
  induction n as [|n [(i & Hi & E)|Hmiss]].
  - right. intros i Hi. lia.
  - left. exists i. split; [lia|exact E].
  - destruct (Nat.eq_dec (f n) v) as [E|N].
    + left. exists n. split; [lia|exact E].
    + right. intros i Hi. destruct (Nat.eq_dec i n) as [->|Hne]; [exact N|].
      apply Hmiss. lia.
Qed.

(** [n + 1] values below [n] cannot all differ. *)
Lemma pigeonhole (n : nat) :
  forall f : nat -> nat,
    (forall i, (i <= n)%nat -> (f i < n)%nat) ->
    exists i j, (i < j <= n)%nat /\ f i = f j.
Proof.
  induction n as [|n IH]; intros f Hf.
  - specialize (Hf O (Nat.le_refl _)). lia.
  - destruct (hit_or_miss f (f (S n)) (S n)) as [(i & Hi & E)|Hmiss].
    + exists i, (S n). split; [lia|exact E].
    + set (v := f (S n)) in *.
      set (g := fun i => if (f i <? v)%nat then f i else (f i - 1)%nat).
      assert (Hv : (v < S n)%nat) by (apply Hf; lia).
      assert (Hg : forall i, (i <= n)%nat -> (g i < n)%nat).
      { intros i Hi. unfold g.
        pose proof (Hf i ltac:(lia)). pose proof (Hmiss i ltac:(lia)).
        destruct (Nat.ltb_spec (f i) v); lia. }
      destruct (IH g Hg) as (i & j & Hij & E).
      exists i, j. split; [lia|].
      pose proof (Hmiss i ltac:(lia)). pose proof (Hmiss j ltac:(lia)).
      unfold g in E.
      destruct (Nat.ltb_spec (f i) v), (Nat.ltb_spec (f j) v); lia.
Qed.

Lemma add32_word (x y : Z) : word (SHA256.add32 x y).
Proof. unfold word, SHA256.add32. apply Z.mod_pos_bound. lia. Qed.

Lemma compress_ok (h : SHA256.regs) (block : list Z) :
  regs_ok (SHA256.compress h block).
Proof.
  unfold regs_ok, SHA256.compress, SHA256.regs_words.
  cbn [SHA256.ra SHA256.rb SHA256.rc SHA256.rd SHA256.re SHA256.rf SHA256.rg SHA256.rh].
  repeat constructor; apply add32_word.
Qed.

Lemma sha256_regs_ok (msg : list byte) : regs_ok (SHA256.sha256_regs msg).
Proof.
  unfold SHA256.sha256_regs.
  generalize (SHA256.blocks (SHA256.pad (map SHA256.byte_to_Z msg))) as bl.
  assert (H : regs_ok SHA256.H0).
  { unfold regs_ok, SHA256.regs_words, word. cbn. repeat constructor; lia. }
  revert H. generalize SHA256.H0 as h.
  intros h H bl. revert h H.
  induction bl as [|b bl IH]; intros h H; cbn [fold_left]; [exact H|].
  apply IH, compress_ok.
Qed.

Lemma regs_ok_words (s : SHA256.regs) :
  regs_ok s ->
  word (SHA256.ra s) /\ word (SHA256.rb s) /\ word (SHA256.rc s) /\
  word (SHA256.rd s) /\ word (SHA256.re s) /\ word (SHA256.rf s) /\
  word (SHA256.rg s) /\ word (SHA256.rh s).
Proof.
  unfold regs_ok, SHA256.regs_words. intros H.
  repeat match goal with
         | H : Forall _ (_ :: _) |- _ => inversion H; subst; clear H
         end.
  tauto.
Qed.

Lemma digit_unique (a b a' b' : Z) :
  word b -> word b' -> a * 2 ^ 32 + b = a' * 2 ^ 32 + b' -> a = a' /\ b = b'.
Proof. unfold word. lia. Qed.

Lemma regs_num_inj (s t : SHA256.regs) :
  regs_ok s -> regs_ok t -> regs_num s = regs_num t -> s = t.
Proof.
  intros Hs Ht. apply regs_ok_words in Hs, Ht.
  destruct s as [a b c d e f g h], t as [a' b' c' d' e' f' g' h'].
  unfold regs_num, SHA256.regs_words. cbn [fold_left] in *.
  cbn [SHA256.ra SHA256.rb SHA256.rc SHA256.rd SHA256.re SHA256.rf SHA256.rg SHA256.rh] in *.
  destruct Hs as (? & ? & ? & ? & ? & ? & ? & ?).
  destruct Ht as (? & ? & ? & ? & ? & ? & ? & ?).
  intros E.
  repeat match goal with
         | E : _ * 2 ^ 32 + _ = _ * 2 ^ 32 + _ |- _ =>
             apply digit_unique in E; [destruct E as [E ?]|assumption|assumption]
         end.
  assert (a = a') by lia. congruence.
Qed.

Lemma regs_num_bound (s : SHA256.regs) :
  regs_ok s -> 0 <= regs_num s < 2 ^ 256.
Proof.
  intros Hs. apply regs_ok_words in Hs.
  destruct s as [a b c d e f g h].
  unfold regs_num, SHA256.regs_words, word in *. cbn [fold_left] in *.
  cbn [SHA256.ra SHA256.rb SHA256.rc SHA256.rd SHA256.re SHA256.rf SHA256.rg SHA256.rh] in *.
  lia.
Qed.

Lemma pw_length (n : nat) : String.length (pw n) = n.
Proof. induction n; cbn; congruence. Qed.

Lemma pw_inj (i j : nat) : pw i = pw j -> i = j.
Proof. intros E. rewrite <- (pw_length i), <- (pw_length j), E. reflexivity. Qed.

(** Under any salt two of the first [2^256 + 1] passwords [pw i] have the
    same digest. *)
Lemma digest_collision (salt : string) :
  exists i j, (i < j)%nat /\
    SHA256.hexdigest (encode (salt ++ pw i))
    = SHA256.hexdigest (encode (salt ++ pw j)).
Proof.
  pose (f := fun i =>
    Z.to_nat (regs_num (SHA256.sha256_regs (encode (salt ++ pw i))))).
  assert (Hf : forall i, (i <= digest_space)%nat -> (f i < digest_space)%nat).
  { intros i _. unfold f, digest_space.
    pose proof (regs_num_bound _ (sha256_regs_ok (encode (salt ++ pw i)))) as B.
    apply Z2Nat.inj_lt; [apply B|apply Z.pow_nonneg; discriminate|apply B]. }
  destruct (pigeonhole digest_space f Hf) as (i & j & Hij & E).
  exists i, j. split; [apply Hij|].
  unfold f in E.
  apply Z2Nat.inj in E;
    [|apply regs_num_bound, sha256_regs_ok|apply regs_num_bound, sha256_regs_ok].
  apply regs_num_inj in E; [|apply sha256_regs_ok|apply sha256_regs_ok].
  unfold SHA256.hexdigest, SHA256.digest. now rewrite E.
Qed.


(** The digests are fewer than the passwords, so some password other than
    the one hashed is accepted. The proof counts and names no such password:
    none is known for SHA-256. *)
Theorem other_password_accepted :
  exists (w : World) (p p2 stored : string) (w1 : World),
    p2 <> p /\
    hash_password p None w = (Return stored, w1) /\
    fst (verify_password p2 stored w1) = Return true.
Proof.
  pose (w := MkWorld (MkDatabase [] [] []) (fun _ => x00) 0 []).
  destruct (digest_collision (fresh_salt w)) as (i & j & Hij & E).
  exists w, (pw i), (pw j), (stored_form (fresh_salt w) (pw i)), (advance 8 w).
  split; [intros C; apply pw_inj in C; lia|].
  split; [apply hash_password_unsalted|].
  rewrite verify_password_stored_form;
    [|apply fresh_salt_truthy|apply fresh_salt_no_dollar].
  cbn [fst]. now rewrite E, String.eqb_refl.
Qed.

(** C2, as stated, fails at the empty salt: it is given, and the result
    neither starts with it nor is the same in two states. *)
Theorem hash_password_empty_salt_replaced :
  fst (hash_password "hunter2" (Some "") w0)
  = Return "0b30557a9fc4e90e$5920396dbb7601388d8ca1325a6a5b13e62ec7fc806dfe4fce1ef4de4bc9b61e"
  /\ fst (hash_password "hunter2" (Some "") w0')
  = Return "0000000000000000$0a0088779f0cd2c8f3e6ddf1f8744d3ba68681dc49818cab57470adb15a3f14b"
  /\ "" ++ "$" ++ SHA256.hexdigest (encode ("" ++ "hunter2"))
  = "$f52fbd32b2b3b86ff88ef6c490628285f482af15ddcb29541f94bcf526a3f6c7".
Proof. repeat split; vm_compute; reflexivity. Qed.

(** C2, as amended. With a salt that is given and not empty the result is
    the formula of the specification whatever the state, which is left as it
    was; with no salt, or the empty one, the salt is the hexadecimal text of
    the next eight bytes of the random source, which are consumed, and the
    formula is the same. *)
Theorem hash_password_formula (password salt : string) (w : World) :
  truthy salt = true ->
  hash_password password (Some salt) w
  = (Return (salt ++ "$" ++ SHA256.hexdigest (encode (salt ++ password))), w)
  /\ (forall absent : option string,
        absent = None \/ absent = Some "" ->
        hash_password password absent w
        = (Return (fresh_salt w ++ "$"
                   ++ SHA256.hexdigest (encode (fresh_salt w ++ password))),
           advance 8 w))
  /\ Hex.fromhex (fresh_salt w) = Some (pending 8 w)
  /\ List.length (pending 8 w) = 8%nat
  /\ str_len (fresh_salt w) = 16%nat.
Proof.
  intros H. split; [apply (hash_password_salted _ _ _ H)|].
  split; [intros absent [->| ->]; reflexivity|].
  split; [apply fromhex_hexlify|]. split; [reflexivity|].
  unfold fresh_salt. rewrite str_len_hexlify. reflexivity.
Qed.

Lemma hash_password_formula_witness :
  truthy "abcd" = true /\
  hash_password "hunter2" (Some "abcd") w0
  = (Return ("abcd" ++ "$" ++ SHA256.hexdigest (encode ("abcd" ++ "hunter2"))), w0).
Proof.
  split; [reflexivity|].
  exact (proj1 (hash_password_formula "hunter2" "abcd" w0 eq_refl)).
Defined.

Example hash_password_abcd :
  fst (hash_password "hunter2" (Some "abcd") w0)
  = Return "abcd$2ceb3cb26c80625e687d1fe56e0ffb673aae4bb5ec84f5773dd5a4337d7776ac".
Proof. vm_compute. reflexivity. Qed.

Lemma split_pieces_clean (sep : ascii) (s piece : string) :
  In piece (split sep s) -> contains sep piece = false.
Proof.
  revert piece. induction s as [|c s IH]; cbn [split]; intros piece Hin.
  - destruct Hin as [<-|[]]. reflexivity.
  - destruct (Ascii.eqb c sep) eqn:Ec.
    + destruct Hin as [<-|Hin]; [reflexivity|auto].
    + destruct (split sep s) as [|p ps].
      * destruct Hin as [<-|[]]. cbn. now rewrite Ec.
      * destruct Hin as [<-|Hin].
        -- cbn. rewrite Ec. apply IH. now left.
        -- apply IH. now right.
Qed.

(** [verify_password] never raises. *)
Lemma verify_password_returns (password stored : string) (w : World) :
  exists b, fst (verify_password password stored w) = Return b.
Proof.
  unfold verify_password, try_except.
  match goal with
  | |- context [match ?m w with _ => _ end] => destruct (m w) as [[b|e] w']
  end; cbn [fst]; eauto.
Qed.

(** What [verify_password] accepts is the stored form of the password under
    some salt that is not empty and holds no separator. *)
Lemma verify_password_accepts (password stored : string) (w : World) :
  fst (verify_password password stored w) = Return true ->
  exists salt, truthy salt = true /\ contains "$" salt = false /\
               stored = stored_form salt password.
Proof.
  unfold verify_password, try_except.
  destruct (split "$" stored) as [|salt [|h [|x l]]] eqn:S;
    try (cbn [raise fst]; discriminate).
  destruct (truthy salt) eqn:T.
  - unfold bind. rewrite (hash_password_salted _ _ _ T). cbn [ret fst].
    intros E. injection E as E. apply String.eqb_eq in E.
    exists salt. split; [exact T|]. split; [|now symmetry].
    apply (split_pieces_clean "$" stored). rewrite S. now left.
  - destruct salt; [|discriminate]. unfold bind.
    rewrite hash_password_empty_salt. cbn [ret fst].
    pose proof (fresh_salt_truthy w) as Ft.
    pose proof (fresh_salt_no_dollar w) as Fc.
    revert Ft Fc. generalize (fresh_salt w) as s. intros s Ft Fc E.
    injection E as E. apply String.eqb_eq in E.
    exists s. auto.
Qed.

(** C9. [verify_password] returns a truth value on every input, and that
    value is [False] for a stored form that does not split in two at the
    separator, and for one that is not [salt + "$" + digest] of this
    password under any salt. *)
Theorem verify_password_total (password stored : string) (w : World) :
  exists b : bool,
    fst (verify_password password stored w) = Return b /\
    (List.length (split "$" stored) <> 2%nat -> b = false) /\
    ((forall salt, stored <> stored_form salt password) -> b = false).
Proof.
  destruct (verify_password_returns password stored w) as [b Hb].
  exists b. split; [exact Hb|].
  destruct b; [|split; reflexivity].
  destruct (verify_password_accepts _ _ _ Hb) as (salt & Ht & Hc & E).
  split.
  - intros H. exfalso. apply H. rewrite E, (split_stored_form _ _ Hc). reflexivity.
  - intros H. exfalso. exact (H salt E).
Qed.

Lemma verify_password_total_witness :
  List.length (split "$" "0b30557a9fc4e90e") <> 2%nat /\
  fst (verify_password "hunter2" "0b30557a9fc4e90e" w0) = Return false.
Proof.
  split; [vm_compute; discriminate|].
  destruct (verify_password_total "hunter2" "0b30557a9fc4e90e" w0)
    as (b & Hb & Hsplit & _).
  rewrite Hb. f_equal. apply Hsplit. vm_compute. discriminate.
Defined.

(** ** Running a handler *)

Lemma run_bind {A B} (m : M A) (k : A -> M B) (w w' : World) (a : A) :
  m w = (Return a, w') -> bind m k w = k a w'.
Proof. intros E. unfold bind. now rewrite E. Qed.

Lemma run_bind_raise {A B} (m : M A) (k : A -> M B) (w w' : World) (e : exn) :
  m w = (Raise e, w') -> bind m k w = (Raise e, w').
Proof. intros E. unfold bind. now rewrite E. Qed.

(** Reading an identifier and resolving a token leave the state alone. *)
Lemma ObjectId_parse_run (s : string) (w : World) :
  ObjectId_parse s w = (fst (ObjectId_parse s w), w).
Proof.
  unfold ObjectId_parse.
  destruct (Nat.eqb (str_len s) 24); [|reflexivity].
  destruct (Hex.fromhex s) as [bs|]; [|reflexivity].
  destruct (ObjectId_of_bytes bs); reflexivity.
Qed.

Lemma ObjectId_parse_frame (s : string) (w w' : World) :
  fst (ObjectId_parse s w') = fst (ObjectId_parse s w).
Proof.
  unfold ObjectId_parse.
  destruct (Nat.eqb (str_len s) 24); [|reflexivity].
  destruct (Hex.fromhex s) as [bs|]; [|reflexivity].
  destruct (ObjectId_of_bytes bs); reflexivity.
Qed.

Lemma get_user_from_token_run (token : string) (w : World) :
  get_user_from_token token w = (fst (get_user_from_token token w), w).
Proof.
  unfold get_user_from_token, bind, find_one.
  destruct (find _ (docs db_session (db w))) as [sess|]; [|reflexivity].
  rewrite (ObjectId_parse_run (Session.user_id sess) w).
  destruct (fst (ObjectId_parse (Session.user_id sess) w)); reflexivity.
Qed.

Lemma user_of_run (token : option string) (w : World) :
  user_of token w = (fst (user_of token w), w).
Proof.
  unfold user_of. destruct token as [t|]; [|reflexivity].
  destruct (truthy t); [apply get_user_from_token_run|reflexivity].
Qed.

Lemma user_of_returns (token : option string) (w : World) (user : option User.doc) :
  fst (user_of token w) = Return user -> user_of token w = (Return user, w).
Proof. intros E. now rewrite user_of_run, E. Qed.

(** The answer depends on the user and session collections only. *)
Lemma user_of_frame (token : option string) (w w' : World) :
  user (db w') = user (db w) -> session (db w') = session (db w) ->
  fst (user_of token w') = fst (user_of token w).
Proof.
  intros Hu Hs. unfold user_of. destruct token as [t|]; [|reflexivity].
  destruct (truthy t); [|reflexivity].
  unfold get_user_from_token, bind, find_one. cbn [docs db_session db_user].
  rewrite Hs. destruct (find _ (session (db w))) as [sess|]; [|reflexivity].
  rewrite (ObjectId_parse_run _ w'), (ObjectId_parse_run _ w).
  rewrite (ObjectId_parse_frame _ w w').
  destruct (fst (ObjectId_parse (Session.user_id sess) w)); [|reflexivity].
  cbn [fst]. now rewrite Hu.
Qed.

(** ** Product creation *)

(** C4. Without a token, with the empty one, with a token no session holds
    or with one that resolves to nobody or to a user who is not an admin,
    product creation raises the 403 and the state is the one it started in:
    nothing is inserted, no write is sent. *)
Theorem create_product_forbidden
    (payload : ProductCreateRequest.t) (token : option string) (w : World) :
  token = None \/ token = Some ""
  \/ (exists t, token = Some t /\
        find (fun s => String.eqb (Session.token s) t) (session (db w)) = None)
  \/ (exists user, fst (user_of token w) = Return user /\ is_admin user = false) ->
  create_product payload token w
  = (Raise (HTTPException 403 "Hanya admin yang dapat menambah produk"), w).
Proof.
  intros H.
  assert (exists user, fst (user_of token w) = Return user /\ is_admin user = false)
    as (user & Hu & Ha).
  { destruct H as [->|[->|[(t & -> & Hf)|H]]]; [| | |exact H].
    - exists None. split; reflexivity.
    - exists None. split; reflexivity.
    - exists None. split; [|reflexivity].
      unfold user_of. destruct (truthy t); [|reflexivity].
      unfold get_user_from_token, bind, find_one. cbn [docs db_session].
      now rewrite Hf. }
  unfold create_product. rewrite (run_bind _ _ _ _ _ (user_of_returns _ _ _ Hu)).
  now rewrite Ha.
Qed.

(** C10. From an admin, a payload with a negative price passes the type of
    the request and fails the construction of the schema model: the handler
    raises a [ValidationError] it does not catch, which is a 500 and no
    4xx, and the state is the one it started in. *)
Theorem create_product_negative_price
    (payload : ProductCreateRequest.t) (token : option string) (w : World)
    (user : option User.doc) :
  fst (user_of token w) = Return user -> is_admin user = true ->
  SFltb (ProductCreateRequest.price payload) zero = true ->
  create_product payload token w = (Raise ValidationError, w)
  /\ status_code_of (fst (create_product payload token w)) = 500.
Proof.
  intros Hu Ha Hneg.
  assert (E : create_product payload token w = (Raise ValidationError, w)).
  { unfold create_product. rewrite (run_bind _ _ _ _ _ (user_of_returns _ _ _ Hu)).
    rewrite Ha. cbn [negb]. unfold ProductSchema.
    assert (SFleb zero (ProductCreateRequest.price payload) = false) as ->.
    { revert Hneg. unfold SFltb, SFleb, zero.
      destruct (ProductCreateRequest.price payload) as [s|[|]| |[|] m e];
        cbn; congruence. }
    reflexivity. }
  rewrite E. split; reflexivity.
Qed.

Lemma create_product_negative_price_witness :
  fst (user_of (Some "b0b") w_shop) = Return (Some bob) /\
  is_admin (Some bob) = true /\
  create_product (ProductCreateRequest.Make "Rice" minus_one None None None true)
    (Some "b0b") w_shop
  = (Raise ValidationError, w_shop).
Proof.
  split; [vm_compute; reflexivity|]. split; [reflexivity|].
  refine (proj1 (create_product_negative_price
                   (ProductCreateRequest.Make "Rice" minus_one None None None true)
                   (Some "b0b") w_shop (Some bob) _ eq_refl eq_refl)).
  vm_compute. reflexivity.
Defined.

Lemma create_product_forbidden_witness :
  (exists user, fst (user_of (Some "a11ce") w_shop) = Return user
                /\ is_admin user = false) /\
  create_product (ProductCreateRequest.Make "Rice" twelve_and_a_half None None None true)
    (Some "a11ce") w_shop
  = (Raise (HTTPException 403 "Hanya admin yang dapat menambah produk"), w_shop).
Proof.
  assert (H : exists user, fst (user_of (Some "a11ce") w_shop) = Return user
                           /\ is_admin user = false).
  { exists (Some alice). split; vm_compute; reflexivity. }
  split; [exact H|].
  apply create_product_forbidden. right. right. right. exact H.
Defined.

(** ** Product update and deletion *)

Lemma bytes_eqb_eq (x y : list byte) : bytes_eqb x y = true <-> x = y.
Proof.
  revert y. induction x as [|a x IH]; intros [|b y]; cbn; try easy.
  rewrite andb_true_iff, IH. split.
  - intros [E ->]. now rewrite (Byte.byte_dec_bl _ _ E).
  - intros E. injection E as -> ->. split; [now apply Byte.byte_dec_lb|reflexivity].
Qed.

Lemma by_id_true {D} (C : Collection D) (oid : ObjectId) (d : D) :
  by_id C oid d = true <-> binary (doc_id C d) = binary oid.
Proof. unfold by_id, oid_eqb. apply bytes_eqb_eq. Qed.

Lemma update_first_miss {D} (q : D -> bool) (f : D -> D) (l : list D) :
  find q l = None -> update_first q f l = (l, O).
Proof.
  induction l as [|d l IH]; cbn; [reflexivity|].
  destruct (q d); [discriminate|]. intros H. now rewrite (IH H).
Qed.

Lemma delete_first_miss {D} (q : D -> bool) (l : list D) :
  find q l = None -> delete_first q l = (l, O).
Proof.
  induction l as [|d l IH]; cbn; [reflexivity|].
  destruct (q d); [discriminate|]. intros H. now rewrite (IH H).
Qed.

Lemma delete_first_count {D} (q : D -> bool) (l : list D) :
  snd (delete_first q l) = match find q l with Some _ => 1%nat | None => O end.
Proof.
  induction l as [|d l IH]; cbn; [reflexivity|].
  destruct (q d); [reflexivity|].
  destruct (delete_first q l). exact IH.
Qed.

(** Under the [_id] index, the document deleted was the only one with its
    identifier. *)
Lemma delete_first_gone {D} (C : Collection D) (oid : ObjectId) (l : list D) :
  NoDup (map (fun x => binary (doc_id C x)) l) ->
  find (by_id C oid) (fst (delete_first (by_id C oid) l)) = None.
Proof.
  induction l as [|d l IH]; cbn [map delete_first]; intros ND; [reflexivity|].
  inversion ND as [|? ? Hnotin ND']; subst.
  destruct (by_id C oid d) eqn:Q.
  - cbn [fst]. destruct (find (by_id C oid) l) as [d'|] eqn:F; [|reflexivity].
    apply find_some in F as [Hin Q']. exfalso. apply Hnotin.
    apply by_id_true in Q, Q'. rewrite Q, <- Q'.
    apply (in_map (fun x => binary (doc_id C x))). exact Hin.
  - specialize (IH ND'). destruct (delete_first (by_id C oid) l) as [l' n].
    cbn [fst find] in *. now rewrite Q.
Qed.

Lemma with_docs_product (d : Database) : with_docs db_product (product d) d = d.
Proof. destruct d; reflexivity. Qed.

Lemma update_one_run {D} (C : Collection D) (q : D -> bool) (f : D -> D) (w : World) :
  update_one C q f w
  = (Return (snd (update_first q f (docs C (db w)))),
     MkWorld (with_docs C (fst (update_first q f (docs C (db w)))) (db w))
       (entropy w) (cursor w) (journal w ++ [UpdateOne (coll_name C)])).
Proof.
  unfold update_one, bind, send, find_all, put_docs, ret. cbn [db entropy cursor journal].
  destruct (update_first q f (docs C (db w))); reflexivity.
Qed.

Lemma delete_one_run {D} (C : Collection D) (q : D -> bool) (w : World) :
  delete_one C q w
  = (Return (snd (delete_first q (docs C (db w)))),
     MkWorld (with_docs C (fst (delete_first q (docs C (db w)))) (db w))
       (entropy w) (cursor w) (journal w ++ [DeleteOne (coll_name C)])).
Proof.
  unfold delete_one, bind, send, find_all, put_docs, ret. cbn [db entropy cursor journal].
  destruct (delete_first q (docs C (db w))); reflexivity.
Qed.

Lemma update_data_nil (payload : ProductUpdateRequest.t) :
  ProductUpdateRequest.name payload = None ->
  ProductUpdateRequest.price payload = None ->
  ProductUpdateRequest.unit payload = None ->
  ProductUpdateRequest.description payload = None ->
  ProductUpdateRequest.image payload = None ->
  ProductUpdateRequest.in_stock payload = None ->
  ProductUpdateRequest.update_data payload = [].
Proof.
  intros H1 H2 H3 H4 H5 H6. unfold ProductUpdateRequest.update_data.
  now rewrite H1, H2, H3, H4, H5, H6.
Qed.

(** C6. From an admin, an update whose six fields are all null raises the
    400 before anything is sent to the store: the state, and with it the
    product addressed, is the one the request started in. *)
Theorem update_product_empty
    (product_id : string) (payload : ProductUpdateRequest.t)
    (token : option string) (w : World) (user : option User.doc) :
  fst (user_of token w) = Return user -> is_admin user = true ->
  ProductUpdateRequest.name payload = None /\
  ProductUpdateRequest.price payload = None /\
  ProductUpdateRequest.unit payload = None /\
  ProductUpdateRequest.description payload = None /\
  ProductUpdateRequest.image payload = None /\
  ProductUpdateRequest.in_stock payload = None ->
  update_product product_id payload token w
  = (Raise (HTTPException 400 "Tidak ada perubahan"), w).
Proof.
  intros Hu Ha (H1 & H2 & H3 & H4 & H5 & H6).
  unfold update_product. rewrite (run_bind _ _ _ _ _ (user_of_returns _ _ _ Hu)).
  rewrite Ha. cbn [negb].
  now rewrite (update_data_nil payload H1 H2 H3 H4 H5 H6).
Qed.

Lemma update_product_empty_witness :
  fst (user_of (Some "b0b") w_shop) = Return (Some bob) /\
  is_admin (Some bob) = true /\
  update_product "020202020202020202020202"
    (ProductUpdateRequest.Make None None None None None None) (Some "b0b") w_shop
  = (Raise (HTTPException 400 "Tidak ada perubahan"), w_shop).
Proof.
  split; [vm_compute; reflexivity|]. split; [reflexivity|].
  refine (update_product_empty "020202020202020202020202"
            (ProductUpdateRequest.Make None None None None None None)
            (Some "b0b") w_shop (Some bob) _ eq_refl _).
  - vm_compute. reflexivity.
  - repeat split.
Defined.

(** What deletion does once the caller is an admin and the identifier is
    read. *)
Lemma delete_product_run (product_id : string) (token : option string)
    (w : World) (user : option User.doc) (oid : ObjectId) :
  fst (user_of token w) = Return user -> is_admin user = true ->
  fst (ObjectId_parse product_id w) = Return oid ->
  delete_product product_id token w
  = ((if Nat.eqb (snd (delete_first (by_id db_product oid) (product (db w)))) 0
      then Raise (HTTPException 404 "Produk tidak ditemukan")
      else Return Ok),
     MkWorld (with_docs db_product
                (fst (delete_first (by_id db_product oid) (product (db w)))) (db w))
       (entropy w) (cursor w) (journal w ++ [DeleteOne c_product])).
Proof.
  intros Hu Ha Ho. unfold delete_product.
  rewrite (run_bind _ _ _ _ _ (user_of_returns _ _ _ Hu)). rewrite Ha. cbn [negb].
  assert (Hp : ObjectId_parse product_id w = (Return oid, w))
    by now rewrite ObjectId_parse_run, Ho.
  rewrite (run_bind _ _ _ _ _ Hp).
  rewrite (run_bind _ _ _ _ _ (delete_one_run db_product _ w)).
  cbn [docs db_product coll_name].
  destruct (Nat.eqb _ 0); reflexivity.
Qed.

(** What an update does once the caller is an admin, the body is not empty
    and the identifier is read. *)
Lemma update_product_run (product_id : string) (payload : ProductUpdateRequest.t)
    (token : option string) (w : World) (user : option User.doc) (oid : ObjectId) :
  fst (user_of token w) = Return user -> is_admin user = true ->
  ProductUpdateRequest.update_data payload <> [] ->
  fst (ObjectId_parse product_id w) = Return oid ->
  let r := update_first (by_id db_product oid)
             (Product.set_fields (ProductUpdateRequest.update_data payload))
             (product (db w)) in
  update_product product_id payload token w
  = ((if Nat.eqb (snd r) 0
      then Raise (HTTPException 404 "Produk tidak ditemukan")
      else match find (by_id db_product oid) (fst r) with
           | Some doc => Return (Updated (externalize doc))
           | None => Raise AttributeError
           end),
     MkWorld (with_docs db_product (fst r) (db w))
       (entropy w) (cursor w) (journal w ++ [UpdateOne c_product])).
Proof.
  intros Hu Ha Hd Ho r. unfold update_product.
  rewrite (run_bind _ _ _ _ _ (user_of_returns _ _ _ Hu)). rewrite Ha. cbn [negb].
  destruct (ProductUpdateRequest.update_data payload) as [|x data] eqn:Ed;
    [congruence|].
  assert (Hp : ObjectId_parse product_id w = (Return oid, w))
    by now rewrite ObjectId_parse_run, Ho.
  rewrite (run_bind _ _ _ _ _ Hp).
  rewrite (run_bind _ _ _ _ _ (update_one_run db_product _ _ w)).
  cbn [docs db_product coll_name]. fold r.
  destruct (Nat.eqb (snd r) 0); [reflexivity|].
  match goal with
  | |- bind _ _ ?w' = _ =>
      assert (Hp' : ObjectId_parse product_id w' = (Return oid, w'))
        by now rewrite ObjectId_parse_run, (ObjectId_parse_frame _ w w'), Ho
  end.
  rewrite (run_bind _ _ _ _ _ Hp').
  unfold bind, find_one. cbn [docs db_product db product with_docs].
  destruct (find (by_id db_product oid) (fst r)); reflexivity.
Qed.

(** C5, as amended. For an admin and a product id that is the text of an
    [ObjectId]: when no product has that identifier, an update with a body
    that is not empty and a deletion both raise the 404 and leave the store
    as it was; and after a deletion that succeeded, the same deletion raises
    the 404. *)
Theorem unknown_product_not_found
    (product_id : string) (token : option string) (w : World)
    (user : option User.doc) (oid : ObjectId) :
  fst (user_of token w) = Return user -> is_admin user = true ->
  fst (ObjectId_parse product_id w) = Return oid ->
  unique_ids db_product (db w) ->
  (find (by_id db_product oid) (product (db w)) = None ->
   (forall payload,
       ProductUpdateRequest.update_data payload <> [] ->
       fst (update_product product_id payload token w)
       = Raise (HTTPException 404 "Produk tidak ditemukan")
       /\ db (snd (update_product product_id payload token w)) = db w)
   /\ fst (delete_product product_id token w)
      = Raise (HTTPException 404 "Produk tidak ditemukan")
   /\ db (snd (delete_product product_id token w)) = db w)
  /\ (forall w1,
        delete_product product_id token w = (Return Ok, w1) ->
        fst (delete_product product_id token w1)
        = Raise (HTTPException 404 "Produk tidak ditemukan")).
Proof.
  intros Hu Ha Ho ND. split.
  - intros Hmiss. split; [intros payload Hd|].
    + rewrite (update_product_run _ _ _ _ _ _ Hu Ha Hd Ho).
      rewrite (update_first_miss _ _ _ Hmiss). cbn [fst snd Nat.eqb db].
      split; [reflexivity|apply with_docs_product].
    + rewrite (delete_product_run _ _ _ _ _ Hu Ha Ho).
      rewrite (delete_first_miss _ _ Hmiss). cbn [fst snd Nat.eqb db].
      split; [reflexivity|apply with_docs_product].
  - intros w1 E. rewrite (delete_product_run _ _ _ _ _ Hu Ha Ho) in E.
    injection E as _ <-.
    match goal with
    | |- fst (delete_product _ _ ?w') = _ => set (w1 := w')
    end.
    assert (Hu1 : fst (user_of token w1) = Return user)
      by (rewrite (user_of_frame token w w1); [exact Hu| |]; reflexivity).
    assert (Ho1 : fst (ObjectId_parse product_id w1) = Return oid)
      by now rewrite (ObjectId_parse_frame _ w w1).
    rewrite (delete_product_run _ _ _ _ _ Hu1 Ha Ho1). cbn [fst].
    rewrite delete_first_count. subst w1. cbn [db product with_docs db_product].
    now rewrite (delete_first_gone db_product oid (product (db w)) ND).
Qed.

Lemma unknown_product_not_found_witness :
  fst (user_of (Some "b0b") w_shop) = Return (Some bob) /\
  is_admin (Some bob) = true /\
  fst (ObjectId_parse "ffffffffffffffffffffffff" w_shop) = Return (oid_of xff) /\
  unique_ids db_product (db w_shop) /\
  find (by_id db_product (oid_of xff)) (product (db w_shop)) = None /\
  fst (delete_product "ffffffffffffffffffffffff" (Some "b0b") w_shop)
  = Raise (HTTPException 404 "Produk tidak ditemukan").
Proof.
  assert (Hu : fst (user_of (Some "b0b") w_shop) = Return (Some bob))
    by (vm_compute; reflexivity).
  assert (Ho : fst (ObjectId_parse "ffffffffffffffffffffffff" w_shop)
               = Return (oid_of xff)) by (vm_compute; reflexivity).
  assert (ND : unique_ids db_product (db w_shop)).
  { unfold unique_ids. cbn. constructor; [intros []|constructor]. }
  assert (Hm : find (by_id db_product (oid_of xff)) (product (db w_shop)) = None)
    by (vm_compute; reflexivity).
  repeat (split; [assumption || reflexivity|]).
  exact (proj1 (proj2 (proj1
           (unknown_product_not_found "ffffffffffffffffffffffff" (Some "b0b")
              w_shop (Some bob) (oid_of xff) Hu eq_refl Ho ND) Hm))).
Defined.

(** C5, as stated, fails: a path string that is not the text of an
    [ObjectId] identifies no product, and deletion and update answer 500;
    and an update with an empty body answers 400 for an identifier no
    product has. *)
Theorem unknown_product_other_status :
  status_code_of (fst (delete_product "abc" (Some "b0b") w_shop)) = 500
  /\ status_code_of
       (fst (update_product "abc"
               (ProductUpdateRequest.Make (Some "Rice") None None None None None)
               (Some "b0b") w_shop)) = 500
  /\ find (by_id db_product (oid_of xff)) (product (db w_shop)) = None
  /\ fst (ObjectId_parse "ffffffffffffffffffffffff" w_shop) = Return (oid_of xff)
  /\ status_code_of
       (fst (update_product "ffffffffffffffffffffffff"
               (ProductUpdateRequest.Make None None None None None None)
               (Some "b0b") w_shop)) = 400.
Proof. repeat split; vm_compute; reflexivity. Qed.

Example delete_twice :
  let first := delete_product "020202020202020202020202" (Some "b0b") w_shop in
  fst first = Return Ok
  /\ fst (delete_product "020202020202020202020202" (Some "b0b") (snd first))
     = Raise (HTTPException 404 "Produk tidak ditemukan").
Proof. split; vm_compute; reflexivity. Qed.

(** ** The price of a stored product *)

(** Product creation stores only what passed the schema: a price that is
    at least zero. *)
Lemma create_product_price_checked
    (payload : ProductCreateRequest.t) (token : option string) (w w' : World)
    (b : body) :
  create_product payload token w = (Return b, w') ->
  SFleb zero (ProductCreateRequest.price payload) = true.
Proof.
  unfold create_product. unfold bind at 1. rewrite (user_of_run token w).
  destruct (fst (user_of token w)) as [user|e]; [|discriminate].
  destruct (negb (is_admin user)); [discriminate|].
  unfold ProductSchema.
  destruct (SFleb zero (ProductCreateRequest.price payload)); [reflexivity|].
  unfold bind, raise. discriminate.
Qed.

(** C3 fails on the code: an admin's update with a negative price is
    answered 200 and the product stored has that price. *)
Theorem update_product_stores_negative_price :
  let answer :=
    update_product "020202020202020202020202"
      (ProductUpdateRequest.Make None (Some minus_one) None None None None)
      (Some "b0b") w_shop in
  status_code_of (fst answer) = 200
  /\ map (fun d => Product.price (Product.data d)) (product (db (snd answer)))
     = [minus_one]
  /\ SFltb minus_one zero = true.
Proof. repeat split; vm_compute; reflexivity. Qed.

(** ** Sessions *)

Lemma ObjectId_eq (a b : ObjectId) : binary a = binary b -> a = b.
Proof.
  destruct a as [x Hx], b as [y Hy]. cbn. intros <-.
  f_equal. apply UIP_dec, bool_dec.
Qed.

Lemma ObjectId_of_bytes_binary (o : ObjectId) : ObjectId_of_bytes (binary o) = Some o.
Proof.
  destruct o as [bs H]. unfold ObjectId_of_bytes. cbn [binary].
  assert (G : forall (b : bool) (pf : Nat.eqb (List.length bs) 12 = b),
             b = true ->
             exists H',
               (match b as ok
                      return Nat.eqb (List.length bs) 12 = ok -> option ObjectId with
                | true => fun H0 => Some (MkObjectId bs H0)
                | false => fun _ => None
                end) pf = Some (MkObjectId bs H')).
  { intros b pf ->. eexists. reflexivity. }
  destruct (G _ eq_refl H) as [H' ->]. f_equal. now apply ObjectId_eq.
Qed.

(** [ObjectId(str(oid)) == oid] *)
Lemma ObjectId_parse_str (o : ObjectId) (w : World) :
  ObjectId_parse (ObjectId_str o) w = (Return o, w).
Proof.
  unfold ObjectId_parse, ObjectId_str.
  rewrite str_len_hexlify, fromhex_hexlify, ObjectId_of_bytes_binary.
  destruct o as [bs H]. cbn [binary].
  rewrite (proj1 (Nat.eqb_eq _ _) H). reflexivity.
Qed.

Lemma by_id_refl {D} (C : Collection D) (d : D) : by_id C (doc_id C d) d = true.
Proof. now apply by_id_true. Qed.

(** Under the [_id] index, looking a stored document up by its identifier
    gives that document. *)
Lemma find_by_id {D} (C : Collection D) (l : list D) (u : D) :
  NoDup (map (fun x => binary (doc_id C x)) l) -> In u l ->
  find (by_id C (doc_id C u)) l = Some u.
Proof.
  induction l as [|d l IH]; cbn [map find]; intros ND Hin; [destruct Hin|].
  inversion ND as [|? ? Hnotin ND']; subst.
  destruct Hin as [->|Hin]; [now rewrite by_id_refl|].
  destruct (by_id C (doc_id C u) d) eqn:Q; [|now apply IH].
  exfalso. apply Hnotin. apply by_id_true in Q. rewrite Q.
  apply (in_map (fun x => binary (doc_id C x))). exact Hin.
Qed.

Lemma find_app_miss {D} (q : D -> bool) (l : list D) (d : D) :
  find q l = None -> q d = true -> find q (l ++ [d]) = Some d.
Proof.
  induction l as [|x l IH]; cbn; intros Hl Hd; [now rewrite Hd|].
  destruct (q x); [discriminate|auto].
Qed.

Lemma insert_one_run {D} (C : Collection D) (document : ObjectId -> D) (w : World) :
  insert_one C document w
  = match find (by_id C (MkObjectId (pending 12 w) eq_refl)) (docs C (db w)) with
    | Some _ =>
        (Raise DuplicateKeyError,
         MkWorld (db w) (entropy w) (cursor w + 12)
           (journal w ++ [InsertOne (coll_name C)]))
    | None =>
        (Return (MkObjectId (pending 12 w) eq_refl),
         MkWorld
           (with_docs C
              (docs C (db w) ++ [document (MkObjectId (pending 12 w) eq_refl)])
              (db w))
           (entropy w) (cursor w + 12)
           (journal w ++ [InsertOne (coll_name C)]))
    end.
Proof.
  unfold insert_one, bind, new_ObjectId, send, find_one, find_all, put_docs, ret,
    raise, advance.
  cbn [db entropy cursor journal].
  destruct (find _ (docs C (db w))); reflexivity.
Qed.

(** A check that succeeds read no entropy. *)
Lemma verify_password_true_state (password stored : string) (w : World) :
  fst (verify_password password stored w) = Return true ->
  verify_password password stored w = (Return true, w).
Proof.
  unfold verify_password, try_except.
  destruct (split "$" stored) as [|salt [|h [|x l]]] eqn:S;
    try (cbn [raise fst]; discriminate).
  destruct (truthy salt) eqn:T.
  - unfold bind. rewrite (hash_password_salted _ _ _ T). cbn [ret fst].
    now intros ->.
  - destruct salt; [|discriminate]. unfold bind.
    rewrite hash_password_empty_salt. cbn [ret fst].
    pose proof (fresh_salt_truthy w) as Ft.
    pose proof (fresh_salt_no_dollar w) as Fc.
    revert Ft Fc. generalize (fresh_salt w) as s. intros s Ft Fc E.
    injection E as E. apply String.eqb_eq in E. exfalso.
    rewrite <- E, (split_stored_form _ _ Fc) in S.
    injection S as -> _. discriminate.
Qed.

Lemma token_hex_run (n : nat) (w : World) :
  token_hex n w = (Return (Hex.hexlify (pending n w)), advance n w).
Proof. reflexivity. Qed.

(** What [create_session] does when the identifier drawn for the session
    document is new. *)
Lemma create_session_run (user_id : string) (w : World) :
  find (by_id db_session (MkObjectId (pending 12 (advance 24 w)) eq_refl))
       (session (db w)) = None ->
  create_session user_id w
  = (Return (Hex.hexlify (pending 24 w)),
     MkWorld
       (MkDatabase (user (db w)) (product (db w))
          (session (db w)
           ++ [Session.Doc (MkObjectId (pending 12 (advance 24 w)) eq_refl)
                 user_id (Hex.hexlify (pending 24 w))]))
       (entropy w) (cursor w + 24 + 12)
       (journal w ++ [InsertOne c_session])).
Proof.
  intros Hnew. unfold create_session.
  rewrite (run_bind _ _ _ _ _ (token_hex_run 24 w)).
  unfold bind. rewrite insert_one_run.
  cbn [docs db_session db advance coll_name with_docs entropy cursor journal].
  rewrite Hnew. reflexivity.
Qed.

(** C7, as amended. When the token drawn is not the token of a stored
    session and the identifier drawn for the session document is not in the
    session collection, logging in with the address of a stored user and a
    password that verifies against the hash stored for that user returns a
    token that [get_user_from_token] resolves, in the state login leaves, to
    the user record login looked up. The user collection has its [_id]
    index. *)
Theorem login_token_resolves (payload : LoginRequest.t) (w : World) (u : User.doc) :
  find (fun x => String.eqb (User.email x) (LoginRequest.email payload))
       (user (db w)) = Some u ->
  fst (verify_password (LoginRequest.password payload)
         (match User.password_hash u with Some h => h | None => "" end) w)
  = Return true ->
  unique_ids db_user (db w) ->
  find (fun s => String.eqb (Session.token s) (Hex.hexlify (pending 24 w)))
       (session (db w)) = None ->
  find (by_id db_session (MkObjectId (pending 12 (advance 24 w)) eq_refl))
       (session (db w)) = None ->
  exists (token : string) (out : Out.user) (w1 : World),
    login payload w = (Return (TokenUser token out), w1) /\
    get_user_from_token token w1 = (Return (Some u), w1).
Proof.
  intros Hfound Hverify ND Htoken Hid.
  assert (Hlogin : exists out,
    login payload w
    = (Return (TokenUser (Hex.hexlify (pending 24 w)) out),
       MkWorld
         (MkDatabase (user (db w)) (product (db w))
            (session (db w)
             ++ [Session.Doc (MkObjectId (pending 12 (advance 24 w)) eq_refl)
                   (ObjectId_str (User._id u)) (Hex.hexlify (pending 24 w))]))
         (entropy w) (cursor w + 24 + 12)
         (journal w ++ [InsertOne c_session]))).
  { eexists. unfold login.
    assert (E : get_user_by_email (LoginRequest.email payload) w
                = (Return (Some u), w)).
    { unfold get_user_by_email, find_one. cbn [docs db_user]. now rewrite Hfound. }
    rewrite (run_bind _ _ _ _ _ E).
    rewrite (run_bind _ _ _ _ _ (verify_password_true_state _ _ _ Hverify)).
    rewrite (run_bind _ _ _ _ _ (create_session_run _ _ Hid)).
    reflexivity. }
  destruct Hlogin as [out Hlogin].
  eexists _, out, _. split; [exact Hlogin|].
  unfold get_user_from_token, bind, find_one at 1.
  cbn [docs db_session db session].
  rewrite (find_app_miss _ _ _ Htoken) by (cbn [Session.token]; apply String.eqb_refl).
  cbn [Session.user_id]. rewrite ObjectId_parse_str.
  unfold find_one. cbn [docs db_user db user].
  rewrite (find_by_id db_user _ _ ND); [reflexivity|].
  apply find_some in Hfound. apply Hfound.
Qed.

Lemma login_token_resolves_witness :
  find (fun x => String.eqb (User.email x) "alice@example.com") (user (db w_shop))
  = Some alice /\
  unique_ids db_user (db w_shop) /\
  exists (token : string) (out : Out.user) (w1 : World),
    login (LoginRequest.Make "alice@example.com" "hunter2") w_shop
    = (Return (TokenUser token out), w1) /\
    get_user_from_token token w1 = (Return (Some alice), w1).
Proof.
  assert (ND : unique_ids db_user (db w_shop)).
  { unfold unique_ids. cbn.
    constructor; [intros [H|[]]; discriminate H|].
    constructor; [intros []|constructor]. }
  split; [vm_compute; reflexivity|]. split; [exact ND|].
  apply (login_token_resolves (LoginRequest.Make "alice@example.com" "hunter2")
           w_shop alice); try (vm_compute; reflexivity).
  exact ND.
Defined.

(** C7, as stated, fails when an identifier drawn at login is already in
    the session collection. In [w_clash] the token drawn is the token of a
    session of Bob: Alice logs in, and the token she gets resolves to Bob.
    In [w_clash_id] the [_id] drawn for the session is taken: the insert is
    refused and login answers 500, without a token. *)
Theorem login_token_of_another_user :
  find (fun x => String.eqb (User.email x) "alice@example.com") (user (db w_clash))
  = Some alice
  /\ fst (login (LoginRequest.Make "alice@example.com" "hunter2") w_clash)
     = Return (TokenUser "0b30557a9fc4e90e33587da2c7ec11365b80a5caef14395e"
                 (Out.User "040404040404040404040404" "Alice"
                    "alice@example.com" "customer"))
  /\ fst (get_user_from_token "0b30557a9fc4e90e33587da2c7ec11365b80a5caef14395e"
            (snd (login (LoginRequest.Make "alice@example.com" "hunter2") w_clash)))
     = Return (Some bob)
  /\ fst (login (LoginRequest.Make "alice@example.com" "hunter2") w_clash_id)
     = Raise DuplicateKeyError
  /\ status_code_of
       (fst (login (LoginRequest.Make "alice@example.com" "hunter2") w_clash_id))
     = 500.
Proof. repeat split; vm_compute; reflexivity. Qed.

(** ** Writes per request *)

Lemma sends_le {A} (m : M A) (a b : nat) : sends m a -> (a <= b)%nat -> sends m b.
Proof.
  intros H L w. destruct (H w) as (ws & E & Hl). exists ws. split; [exact E|lia].
Qed.

Lemma sends_quiet {A} (m : M A) :
  (forall w, journal (snd (m w)) = journal w) -> sends m 0.
Proof.
  intros H w. exists []. rewrite H, app_nil_r. split; [reflexivity|cbn; lia].
Qed.

Lemma sends_ret {A} (a : A) (n : nat) : sends (ret a) n.
Proof. apply (sends_le _ 0); [now apply sends_quiet|lia]. Qed.

Lemma sends_raise {A} (e : exn) (n : nat) : sends (@raise A e) n.
Proof. apply (sends_le _ 0); [now apply sends_quiet|lia]. Qed.

Lemma sends_bind {A B} (m : M A) (k : A -> M B) (a b : nat) :
  sends m a -> (forall x, sends (k x) b) -> sends (bind m k) (a + b).
Proof.
  intros Hm Hk w. unfold bind.
  destruct (Hm w) as (ws & E & Hl). destruct (m w) as [[x|e] w1]; cbn [snd] in *.
  - destruct (Hk x w1) as (ws' & E' & Hl'). exists (ws ++ ws')%list.
    rewrite E', E, app_assoc, length_app. split; [reflexivity|lia].
  - exists ws. split; [exact E|lia].
Qed.

Lemma sends_bind_quiet {A B} (m : M A) (k : A -> M B) (n : nat) :
  sends m 0 -> (forall x, sends (k x) n) -> sends (bind m k) n.
Proof. intros Hm Hk. exact (sends_bind m k 0 n Hm Hk). Qed.










Lemma sends_hash_password (password : string) (salt : option string) :
  sends (hash_password password salt) 0.
Proof.
  apply sends_quiet. intros w. unfold hash_password, bind.
  destruct salt as [s|]; [destruct (truthy s)|]; reflexivity.
Qed.

Lemma sends_try_except {A} (m : M A) (fallback : A) (n : nat) :
  sends m n -> sends (try_except m fallback) n.
Proof.
  intros H w. destruct (H w) as (ws & E & Hl). exists ws.
  unfold try_except. destruct (m w) as [[a|e] w1]; split; assumption.
Qed.

Lemma sends_verify_password (password stored : string) :
  sends (verify_password password stored) 0.
Proof.
  unfold verify_password. apply sends_try_except.
  destruct (split "$" stored) as [|salt [|h [|x l]]]; try apply sends_raise.
  apply sends_bind_quiet; [apply sends_hash_password|intros; apply sends_ret].
Qed.










(** ** A request that fails *)

Lemma reads_bind {A B} (m : M A) (k : A -> M B) :
  reads m -> (forall x, reads (k x)) -> reads (bind m k).
Proof.
  intros Hm Hk w. unfold bind. specialize (Hm w).
  destruct (m w) as [[x|e] w1]; cbn [snd] in *; [|exact Hm].
  now rewrite Hk.
Qed.

Lemma reads_hash_password (password : string) (salt : option string) :
  reads (hash_password password salt).
Proof.
  intros w. unfold hash_password, bind.
  destruct salt as [s|]; [destruct (truthy s)|]; reflexivity.
Qed.

Lemma reads_try_except {A} (m : M A) (fallback : A) :
  reads m -> reads (try_except m fallback).
Proof.
  intros H w. specialize (H w). unfold try_except.
  destruct (m w) as [[a|e] w1]; exact H.
Qed.

Lemma reads_verify_password (password stored : string) :
  reads (verify_password password stored).
Proof.
  unfold verify_password. apply reads_try_except.
  destruct (split "$" stored) as [|salt [|h [|x l]]]; try (now intros w).
  apply reads_bind; [apply reads_hash_password|now intros again w].
Qed.







Lemma reads_user_of (token : option string) : reads (user_of token).
Proof. intros w. now rewrite user_of_run. Qed.

Lemma reads_ObjectId_parse (s : string) : reads (ObjectId_parse s).
Proof. intros w. now rewrite ObjectId_parse_run. Qed.











(** An answer 500 that follows a write: an infinite price passes [ge=0],
    the product is inserted with its one write, and the body that
    [create_product] returns cannot be rendered. *)
Lemma create_product_infinite_price :
  let payload := ProductCreateRequest.Make "Gold" infinity None None None true in
  let answer := create_product payload (Some "b0b") w_shop in
  fst answer = Return (Created "0b30557a9fc4e90e33587da2" payload)
  /\ status_code_of (fst answer) = 500
  /\ writes_of (create_product payload (Some "b0b")) w_shop = [InsertOne c_product]
  /\ map (fun d => Product.price (Product.data d)) (product (db (snd answer)))
     = [twelve_and_a_half; infinity].
Proof. repeat split; vm_compute; reflexivity. Qed.

(** ** The [_id] indexes are kept by every request *)

Lemma keeps_reads {A} (m : M A) : reads m -> keeps m.
Proof. intros H w Hw. now rewrite H. Qed.

Lemma keeps_bind {A B} (m : M A) (k : A -> M B) :
  keeps m -> (forall x, keeps (k x)) -> keeps (bind m k).
Proof.
  intros Hm Hk w Hw. unfold bind. specialize (Hm w Hw).
  destruct (m w) as [[x|e] w1]; cbn [snd] in *; [|exact Hm].
  now apply Hk.
Qed.

Lemma keeps_ret {A} (a : A) : keeps (ret a).
Proof. now apply keeps_reads. Qed.

Lemma keeps_raise {A} (e : exn) : keeps (@raise A e).
Proof. now apply keeps_reads. Qed.

Lemma unique_snoc {D} (C : Collection D) (l : list D) (d : D) :
  NoDup (map (fun x => binary (doc_id C x)) l) ->
  find (by_id C (doc_id C d)) l = None ->
  NoDup (map (fun x => binary (doc_id C x)) (l ++ [d])).
Proof.
  intros ND Hnew. rewrite map_app. apply NoDup_app; [exact ND| |].
  - cbn. constructor; [intros []|constructor].
  - intros k Hin [<-|[]]. apply in_map_iff in Hin as (x & Hx & Hin).
    pose proof (find_none _ _ Hnew x Hin) as Q.
    apply by_id_true in Hx. congruence.
Qed.

Lemma update_first_ids {D} (C : Collection D) (q : D -> bool) (f : D -> D)
    (l : list D) :
  (forall d, doc_id C (f d) = doc_id C d) ->
  map (fun x => binary (doc_id C x)) (fst (update_first q f l))
  = map (fun x => binary (doc_id C x)) l.
Proof.
  intros Hf. induction l as [|d l IH]; cbn; [reflexivity|].
  destruct (q d); cbn; [now rewrite Hf|].
  destruct (update_first q f l) as [l' n]. cbn in *. now rewrite IH.
Qed.

Lemma delete_first_incl {D} (q : D -> bool) (l : list D) (x : D) :
  In x (fst (delete_first q l)) -> In x l.
Proof.
  induction l as [|d l IH]; cbn; [auto|].
  destruct (q d); cbn; [auto|].
  destruct (delete_first q l) as [l' n]. cbn in *. intros [->|H]; auto.
Qed.

Lemma delete_first_unique {D} (C : Collection D) (q : D -> bool) (l : list D) :
  NoDup (map (fun x => binary (doc_id C x)) l) ->
  NoDup (map (fun x => binary (doc_id C x)) (fst (delete_first q l))).
Proof.
  induction l as [|d l IH]; cbn [map delete_first]; intros ND; [exact ND|].
  inversion ND as [|? ? Hnotin ND']; subst.
  destruct (q d); cbn [fst]; [exact ND'|].
  pose proof (delete_first_incl q l) as Hincl. specialize (IH ND').
  destruct (delete_first q l) as [l' n]. cbn [fst map] in *.
  constructor; [|exact IH].
  intros Hin. apply Hnotin. apply in_map_iff in Hin as (x & Hx & Hin).
  apply in_map_iff. exists x. auto.
Qed.

Lemma keeps_insert_user (document : ObjectId -> User.doc) :
  (forall oid, User._id (document oid) = oid) ->
  keeps (insert_one db_user document).
Proof.
  intros Hid w (Hu & Hp & Hs). rewrite insert_one_run.
  destruct (find _ (docs db_user (db w))) eqn:F; [now split|].
  cbn [snd db]. split; [|split; assumption].
  unfold unique_ids in *. cbn [docs db_user with_docs user] in *.
  apply unique_snoc; [exact Hu|]. cbn [doc_id]. now rewrite Hid.
Qed.

Lemma keeps_insert_product (document : ObjectId -> Product.doc) :
  (forall oid, Product._id (document oid) = oid) ->
  keeps (insert_one db_product document).
Proof.
  intros Hid w (Hu & Hp & Hs). rewrite insert_one_run.
  destruct (find _ (docs db_product (db w))) eqn:F; [now split|].
  cbn [snd db]. split; [assumption|split; [|assumption]].
  unfold unique_ids in *. cbn [docs db_product with_docs product] in *.
  apply unique_snoc; [exact Hp|]. cbn [doc_id]. now rewrite Hid.
Qed.

Lemma keeps_insert_session (document : ObjectId -> Session.doc) :
  (forall oid, Session._id (document oid) = oid) ->
  keeps (insert_one db_session document).
Proof.
  intros Hid w (Hu & Hp & Hs). rewrite insert_one_run.
  destruct (find _ (docs db_session (db w))) eqn:F; [now split|].
  cbn [snd db]. split; [assumption|split; [assumption|]].
  unfold unique_ids in *. cbn [docs db_session with_docs session] in *.
  apply unique_snoc; [exact Hs|]. cbn [doc_id]. now rewrite Hid.
Qed.

Lemma keeps_update_product (q : Product.doc -> bool) (data : list Product.field) :
  keeps (update_one db_product q (Product.set_fields data)).
Proof.
  intros w (Hu & Hp & Hs). rewrite update_one_run. cbn [snd db].
  split; [assumption|split; [|assumption]].
  unfold unique_ids in *. cbn [docs db_product with_docs product] in *.
  now rewrite (update_first_ids db_product).
Qed.

Lemma keeps_delete_product (q : Product.doc -> bool) :
  keeps (delete_one db_product q).
Proof.
  intros w (Hu & Hp & Hs). rewrite delete_one_run. cbn [snd db].
  split; [assumption|split; [|assumption]].
  unfold unique_ids in *. cbn [docs db_product with_docs product] in *.
  now apply (delete_first_unique db_product).
Qed.

Lemma keeps_create_session (user_id : string) : keeps (create_session user_id).
Proof.
  unfold create_session. apply keeps_bind; [now apply keeps_reads|].
  intros token. apply keeps_bind; [now apply keeps_insert_session|].
  intros; apply keeps_ret.
Qed.

(** X21. Every request keeps the three [_id] indexes, which hold of the
    empty store: an insert is refused when its identifier is taken, [$set]
    never names [_id], and a deletion only removes. *)
Theorem app_keeps_indexes (r : Request) : keeps (app r).
Proof.
  destruct r as [| |payload|payload| |payload token|product_id payload token
                |product_id token]; cbn [app].
  - apply keeps_ret.
  - apply keeps_ret.
  - unfold register, get_user_by_email.
    apply keeps_bind; [now apply keeps_reads|].
    intros [existing|]; [apply keeps_raise|].
    apply keeps_bind; [apply keeps_reads, reads_hash_password|]. intros pwd.
    apply keeps_bind.
    { apply keeps_reads. intros w. unfold UserSchema. now destruct (Nat.leb _ _). }
    intros user. apply keeps_bind.
    { unfold create_document. apply keeps_bind; [now apply keeps_insert_user|].
      intros; apply keeps_ret. }
    intros user_id. apply keeps_bind; [apply keeps_create_session|].
    intros; apply keeps_ret.
  - unfold login, get_user_by_email.
    apply keeps_bind; [now apply keeps_reads|].
    intros [user|]; [|apply keeps_raise].
    apply keeps_bind; [apply keeps_reads, reads_verify_password|].
    intros [|]; [|apply keeps_raise].
    apply keeps_bind; [apply keeps_create_session|]. intros; apply keeps_ret.
  - apply keeps_reads. now intros w.
  - unfold create_product. apply keeps_bind; [apply keeps_reads, reads_user_of|].
    intros user. destruct (negb (is_admin user)); [apply keeps_raise|].
    apply keeps_bind.
    { apply keeps_reads. intros w. unfold ProductSchema. now destruct (SFleb _ _). }
    intros prod. apply keeps_bind; [|intros; apply keeps_ret].
    unfold create_document. apply keeps_bind; [now apply keeps_insert_product|].
    intros; apply keeps_ret.
  - unfold update_product. apply keeps_bind; [apply keeps_reads, reads_user_of|].
    intros user. destruct (negb (is_admin user)); [apply keeps_raise|].
    destruct (ProductUpdateRequest.update_data payload) eqn:Hd; [apply keeps_raise|].
    apply keeps_bind; [apply keeps_reads, reads_ObjectId_parse|]. intros oid.
    apply keeps_bind; [apply keeps_update_product|]. intros matched_count.
    destruct (Nat.eqb matched_count 0); [apply keeps_raise|].
    apply keeps_bind; [apply keeps_reads, reads_ObjectId_parse|]. intros oid'.
    apply keeps_bind; [now apply keeps_reads|].
    intros [doc|]; [apply keeps_ret|apply keeps_raise].
  - unfold delete_product. apply keeps_bind; [apply keeps_reads, reads_user_of|].
    intros user. destruct (negb (is_admin user)); [apply keeps_raise|].
    apply keeps_bind; [apply keeps_reads, reads_ObjectId_parse|]. intros oid.
    apply keeps_bind; [apply keeps_delete_product|]. intros deleted_count.
    destruct (Nat.eqb deleted_count 0); [apply keeps_raise|apply keeps_ret].
Qed.

Lemma empty_store_ok : store_ok (MkDatabase [] [] []).
Proof. repeat split; constructor. Qed.

(** * Further properties *)

(** ** Registration *)

Lemma get_user_by_email_run (email : string) (w : World) :
  get_user_by_email email w
  = (Return (find (fun u => String.eqb (User.email u) email) (user (db w))), w).
Proof. reflexivity. Qed.

(** X1. Registration with an address a stored user has raises the 400
    before anything is hashed, drawn or sent: the state is the one the
    request started in. *)
Theorem register_duplicate_email (payload : RegisterRequest.t) (w : World)
    (u : User.doc) :
  find (fun x => String.eqb (User.email x) (RegisterRequest.email payload))
       (user (db w)) = Some u ->
  register payload w = (Raise (HTTPException 400 "Email sudah terdaftar"), w).
Proof.
  intros H. unfold register.
  rewrite (run_bind _ _ _ _ _ (get_user_by_email_run _ w)). now rewrite H.
Qed.

Lemma register_duplicate_email_witness :
  find (fun x => String.eqb (User.email x) "alice@example.com") (user (db w_shop))
  = Some alice /\
  register alice_request w_shop
  = (Raise (HTTPException 400 "Email sudah terdaftar"), w_shop).
Proof.
  split; [vm_compute; reflexivity|].
  apply (register_duplicate_email alice_request w_shop alice).
  vm_compute. reflexivity.
Defined.

(** X2. The request model puts no bound on the name and the schema model
    asks for two characters: registration with a shorter name, under an
    address that is free, raises a [ValidationError] it does not catch, a
    500. The salt has been drawn by then, and nothing is stored or sent. *)
Theorem register_short_name (payload : RegisterRequest.t) (w : World) :
  find (fun x => String.eqb (User.email x) (RegisterRequest.email payload))
       (user (db w)) = None ->
  (str_len (RegisterRequest.name payload) < 2)%nat ->
  register payload w = (Raise ValidationError, advance 8 w)
  /\ status_code_of (fst (register payload w)) = 500.
Proof.
  intros Hfree Hshort.
  assert (E : register payload w = (Raise ValidationError, advance 8 w)).
  { unfold register.
    rewrite (run_bind _ _ _ _ _ (get_user_by_email_run _ w)). rewrite Hfree.
    rewrite (run_bind _ _ _ _ _ (hash_password_unsalted _ w)).
    unfold UserSchema.
    destruct (Nat.leb_spec 2 (str_len (RegisterRequest.name payload))); [lia|].
    reflexivity. }
  rewrite E. split; reflexivity.
Qed.

Lemma register_short_name_witness :
  (str_len "A" < 2)%nat /\
  register (RegisterRequest.Make "A" "a@example.com" "hunter2") w0
  = (Raise ValidationError, advance 8 w0).
Proof.
  split; [cbn; lia|].
  refine (proj1 (register_short_name
                   (RegisterRequest.Make "A" "a@example.com" "hunter2") w0
                   eq_refl _)).
  cbn. lia.
Defined.

Lemma create_document_run {D} (C : Collection D) (document : ObjectId -> D)
    (w : World) :
  new_id C (MkObjectId (pending 12 w) eq_refl) (db w) ->
  create_document C document w
  = (Return (ObjectId_str (MkObjectId (pending 12 w) eq_refl)),
     MkWorld
       (with_docs C
          (docs C (db w) ++ [document (MkObjectId (pending 12 w) eq_refl)]) (db w))
       (entropy w) (cursor w + 12) (journal w ++ [InsertOne (coll_name C)])).
Proof.
  intros Hnew. unfold create_document, bind. rewrite insert_one_run.
  unfold new_id in Hnew. now rewrite Hnew.
Qed.

Lemma UserSchema_run (name email password_hash role : string) (w : World) :
  (2 <= str_len name)%nat ->
  UserSchema name email password_hash role w
  = (Return (User.Model name email password_hash role true), w).
Proof.
  intros H. unfold UserSchema.
  destruct (Nat.leb_spec 2 (str_len name)); [reflexivity|lia].
Qed.

(** What registration does when the address is free, the name long enough
    and the two identifiers it draws are new. *)
Lemma register_run (payload : RegisterRequest.t) (w : World) :
  find (fun x => String.eqb (User.email x) (RegisterRequest.email payload))
       (user (db w)) = None ->
  (2 <= str_len (RegisterRequest.name payload))%nat ->
  new_id db_user (register_user_id w) (db w) ->
  new_id db_session (register_session_id w) (db w) ->
  register payload w
  = (Return (TokenUser (register_token w)
               (Out.User (ObjectId_str (register_user_id w))
                  (RegisterRequest.name payload) (RegisterRequest.email payload)
                  "customer")),
     MkWorld
       (MkDatabase
          (user (db w) ++ [registered payload w])
          (product (db w))
          (session (db w)
           ++ [Session.Doc (register_session_id w)
                 (ObjectId_str (register_user_id w)) (register_token w)]))
       (entropy w) (cursor w + 8 + 12 + 24 + 12)
       (journal w ++ [InsertOne c_user] ++ [InsertOne c_session])).
Proof.
  intros Hfree Hname Hu Hs. unfold register.
  rewrite (run_bind _ _ _ _ _ (get_user_by_email_run _ w)). rewrite Hfree.
  rewrite (run_bind _ _ _ _ _ (hash_password_unsalted _ w)).
  rewrite (run_bind _ _ _ _ _ (UserSchema_run _ _ _ _ _ Hname)).
  rewrite (run_bind _ _ _ _ _ (create_document_run db_user _ (advance 8 w) Hu)).
  match goal with
  | |- bind _ _ ?w' = _ => rewrite (run_bind _ _ _ _ _ (create_session_run _ w' Hs))
  end.
  cbn [ret db user product session with_docs db_user docs advance entropy cursor
       journal coll_name User.store User.m_name User.m_email User.m_role
       User.m_password_hash User.m_is_active].
  unfold registered, register_user_id, register_token, register_session_id.
  rewrite <- app_assoc. reflexivity.
Qed.

(** X3. When the address is free, the name has two characters or more and
    the two identifiers drawn are new, registration answers with the token
    and the new user as a customer, and appends one document to the user
    collection and one to the session collection: the user is active, is
    not an admin, and the hash stored for it is the salted form of the
    password, against which the password verifies. Products are as they
    were. *)
Theorem register_stores_customer (payload : RegisterRequest.t) (w : World) :
  find (fun x => String.eqb (User.email x) (RegisterRequest.email payload))
       (user (db w)) = None ->
  (2 <= str_len (RegisterRequest.name payload))%nat ->
  new_id db_user (register_user_id w) (db w) ->
  new_id db_session (register_session_id w) (db w) ->
  exists w1,
    register payload w
    = (Return (TokenUser (register_token w)
                 (Out.User (ObjectId_str (register_user_id w))
                    (RegisterRequest.name payload)
                    (RegisterRequest.email payload) "customer")), w1)
    /\ user (db w1) = (user (db w) ++ [registered payload w])%list
    /\ session (db w1)
       = (session (db w)
          ++ [Session.Doc (register_session_id w)
                (ObjectId_str (register_user_id w)) (register_token w)])%list
    /\ product (db w1) = product (db w)
    /\ customer (registered payload w)
    /\ is_admin (Some (registered payload w)) = false
    /\ exists h, User.password_hash (registered payload w) = Some h
         /\ forall w2, verify_password (RegisterRequest.password payload) h w2
                       = (Return true, w2).
Proof.
  intros Hfree Hname Hu Hs. eexists. split; [apply register_run; assumption|].
  cbn [db user session product].
  do 3 (split; [reflexivity|]). split; [split; reflexivity|].
  split; [reflexivity|].
  eexists. split; [reflexivity|]. intros w2.
  rewrite verify_password_stored_form;
    [|apply fresh_salt_truthy|apply fresh_salt_no_dollar].
  now rewrite String.eqb_refl.
Qed.

Lemma register_stores_customer_witness :
  find (fun x => String.eqb (User.email x) "alice@example.com") (user (db w0)) = None
  /\ (2 <= str_len "Alice")%nat
  /\ new_id db_user (register_user_id w0) (db w0)
  /\ new_id db_session (register_session_id w0) (db w0)
  /\ exists w1,
       register alice_request w0
       = (Return (TokenUser (register_token w0)
                    (Out.User (ObjectId_str (register_user_id w0))
                       "Alice" "alice@example.com" "customer")), w1)
       /\ user (db w1) = [registered alice_request w0].
Proof.
  assert (Hn : (2 <= str_len "Alice")%nat) by (cbn; lia).
  repeat (split; [reflexivity || exact Hn|]).
  destruct (register_stores_customer alice_request w0 eq_refl Hn eq_refl eq_refl)
    as (w1 & E & Eu & _).
  exists w1. split; [exact E|exact Eu].
Defined.

(** A registration that returned went through the four checks. *)
Lemma register_returned (payload : RegisterRequest.t) (w w1 : World) (b : body) :
  register payload w = (Return b, w1) ->
  find (fun x => String.eqb (User.email x) (RegisterRequest.email payload))
       (user (db w)) = None
  /\ (2 <= str_len (RegisterRequest.name payload))%nat
  /\ new_id db_user (register_user_id w) (db w)
  /\ new_id db_session (register_session_id w) (db w).
Proof.
  intros E.
  destruct (find (fun x => String.eqb (User.email x) (RegisterRequest.email payload))
              (user (db w))) as [u|] eqn:Hfree.
  { exfalso. revert E. unfold register.
    rewrite (run_bind _ _ _ _ _ (get_user_by_email_run _ w)). rewrite Hfree.
    discriminate. }
  destruct (Nat.leb_spec 2 (str_len (RegisterRequest.name payload))) as [Hname|Hname].
  2:{ exfalso. revert E. unfold register.
      rewrite (run_bind _ _ _ _ _ (get_user_by_email_run _ w)). rewrite Hfree.
      rewrite (run_bind _ _ _ _ _ (hash_password_unsalted _ w)).
      unfold UserSchema.
      destruct (Nat.leb_spec 2 (str_len (RegisterRequest.name payload))); [lia|].
      discriminate. }
  assert (Hu : new_id db_user (register_user_id w) (db w)).
  { unfold new_id, register_user_id. cbn [docs db_user].
    destruct (find (by_id db_user (MkObjectId (pending 12 (advance 8 w)) eq_refl))
                (user (db w))) as [d|] eqn:F; [|reflexivity].
    exfalso. revert E. unfold register.
    rewrite (run_bind _ _ _ _ _ (get_user_by_email_run _ w)). rewrite Hfree.
    rewrite (run_bind _ _ _ _ _ (hash_password_unsalted _ w)).
    rewrite (run_bind _ _ _ _ _ (UserSchema_run _ _ _ _ _ Hname)).
    unfold create_document. unfold bind at 1. unfold bind at 1.
    rewrite insert_one_run. cbn [docs db_user db advance]. rewrite F.
    discriminate. }
  split; [reflexivity|]. split; [exact Hname|]. split; [exact Hu|].
  unfold new_id, register_session_id. cbn [docs db_session].
  destruct (find _ (session (db w))) as [d|] eqn:F; [|reflexivity].
  exfalso. revert E. unfold register.
  rewrite (run_bind _ _ _ _ _ (get_user_by_email_run _ w)). rewrite Hfree.
  rewrite (run_bind _ _ _ _ _ (hash_password_unsalted _ w)).
  rewrite (run_bind _ _ _ _ _ (UserSchema_run _ _ _ _ _ Hname)).
  rewrite (run_bind _ _ _ _ _ (create_document_run db_user _ (advance 8 w) Hu)).
  unfold create_session. unfold bind at 1.
  rewrite (run_bind _ _ _ _ _ (token_hex_run 24 _)).
  unfold bind at 1. rewrite insert_one_run.
  cbn [docs db_session db advance session with_docs db_user entropy cursor].
  unfold pending in *. cbn [entropy cursor advance] in *. rewrite F.
  discriminate.
Qed.

Lemma token_truthy (w : World) : truthy (Hex.hexlify (pending 24 w)) = true.
Proof. reflexivity. Qed.

(** X4. After a registration that returned, logging in with the same
    address and password returns a token and the same user, as long as the
    identifier drawn for the new session document is not in the session
    collection: the user registered is the first one with the address, and
    the password verifies against the hash stored. *)
Theorem register_then_login (payload : RegisterRequest.t) (w w1 : World)
    (token : string) (out : Out.user) :
  register payload w = (Return (TokenUser token out), w1) ->
  new_id db_session (login_session_id w1) (db w1) ->
  exists w2,
    login (LoginRequest.Make (RegisterRequest.email payload)
             (RegisterRequest.password payload)) w1
    = (Return (TokenUser (login_token w1) out), w2).
Proof.
  intros E Hid.
  destruct (register_returned _ _ _ _ E) as (Hfree & Hname & Hu & Hs).
  rewrite (register_run _ _ Hfree Hname Hu Hs) in E.
  injection E as Et Eo Ew. subst w1 out.
  eexists. unfold login. cbn [LoginRequest.email LoginRequest.password].
  rewrite (run_bind _ _ _ _ _ (get_user_by_email_run _ _)).
  cbn [db user].
  rewrite (find_app_miss _ _ _ Hfree)
    by (unfold registered; cbn [User.email]; apply String.eqb_refl).
  unfold registered at 1. cbn [User.password_hash].
  rewrite (run_bind _ _ _ _ _
             (verify_password_stored_form _ _ _ _ (fresh_salt_truthy w)
                (fresh_salt_no_dollar w))).
  rewrite String.eqb_refl.
  unfold new_id, login_session_id in Hid. cbn [docs db_session] in Hid.
  rewrite (run_bind _ _ _ _ _ (create_session_run _ _ Hid)).
  reflexivity.
Qed.

Lemma register_then_login_witness :
  (exists token out,
      register alice_request w0
      = (Return (TokenUser token out), snd (register alice_request w0)))
  /\ new_id db_session (login_session_id (snd (register alice_request w0)))
       (db (snd (register alice_request w0)))
  /\ exists w2,
       login (LoginRequest.Make "alice@example.com" "hunter2")
         (snd (register alice_request w0))
       = (Return (TokenUser (login_token (snd (register alice_request w0)))
                    (Out.User (ObjectId_str (register_user_id w0))
                       "Alice" "alice@example.com" "customer")), w2).
Proof.
  assert (Hn : (2 <= str_len "Alice")%nat) by (cbn; lia).
  pose proof (register_run alice_request w0 eq_refl Hn eq_refl eq_refl) as E.
  assert (Hid : new_id db_session (login_session_id (snd (register alice_request w0)))
                  (db (snd (register alice_request w0)))).
  { rewrite E. vm_compute. reflexivity. }
  split; [rewrite E; eexists _, _; reflexivity|].
  split; [exact Hid|].
  refine (register_then_login alice_request w0 _ _ _ _ Hid).
  rewrite E. reflexivity.
Defined.

(** ** Who may change products *)

Lemma create_product_403 (payload : ProductCreateRequest.t) (token : option string)
    (w : World) (user : option User.doc) :
  fst (user_of token w) = Return user -> is_admin user = false ->
  create_product payload token w
  = (Raise (HTTPException 403 "Hanya admin yang dapat menambah produk"), w).
Proof.
  intros Hu Ha. unfold create_product.
  rewrite (run_bind _ _ _ _ _ (user_of_returns _ _ _ Hu)). now rewrite Ha.
Qed.

Lemma update_product_403 (product_id : string) (payload : ProductUpdateRequest.t)
    (token : option string) (w : World) (user : option User.doc) :
  fst (user_of token w) = Return user -> is_admin user = false ->
  update_product product_id payload token w
  = (Raise (HTTPException 403 "Hanya admin yang dapat mengubah produk"), w).
Proof.
  intros Hu Ha. unfold update_product.
  rewrite (run_bind _ _ _ _ _ (user_of_returns _ _ _ Hu)). now rewrite Ha.
Qed.

Lemma delete_product_403 (product_id : string) (token : option string)
    (w : World) (user : option User.doc) :
  fst (user_of token w) = Return user -> is_admin user = false ->
  delete_product product_id token w
  = (Raise (HTTPException 403 "Hanya admin yang dapat menghapus produk"), w).
Proof.
  intros Hu Ha. unfold delete_product.
  rewrite (run_bind _ _ _ _ _ (user_of_returns _ _ _ Hu)). now rewrite Ha.
Qed.

(** X5. For a caller who resolves to nobody or to a user who is not an
    admin, update and deletion raise their 403 first: whatever the product
    id, well formed or not, known or not, and whatever the body, empty or
    not, the state is the one the request started in. *)
Theorem update_delete_forbidden (product_id : string)
    (payload : ProductUpdateRequest.t) (token : option string) (w : World)
    (user : option User.doc) :
  fst (user_of token w) = Return user -> is_admin user = false ->
  update_product product_id payload token w
  = (Raise (HTTPException 403 "Hanya admin yang dapat mengubah produk"), w)
  /\ delete_product product_id token w
     = (Raise (HTTPException 403 "Hanya admin yang dapat menghapus produk"), w).
Proof.
  intros Hu Ha. split.
  - exact (update_product_403 _ _ _ _ _ Hu Ha).
  - exact (delete_product_403 _ _ _ _ Hu Ha).
Qed.

Lemma update_delete_forbidden_witness :
  fst (user_of (Some "a11ce") w_shop) = Return (Some alice)
  /\ is_admin (Some alice) = false
  /\ update_product "not an id"
       (ProductUpdateRequest.Make None None None None None None)
       (Some "a11ce") w_shop
     = (Raise (HTTPException 403 "Hanya admin yang dapat mengubah produk"), w_shop)
  /\ delete_product "020202020202020202020202" (Some "a11ce") w_shop
     = (Raise (HTTPException 403 "Hanya admin yang dapat menghapus produk"), w_shop).
Proof.
  assert (Hu : fst (user_of (Some "a11ce") w_shop) = Return (Some alice))
    by (vm_compute; reflexivity).
  split; [exact Hu|]. split; [reflexivity|]. split.
  - exact (proj1 (update_delete_forbidden "not an id"
                    (ProductUpdateRequest.Make None None None None None None)
                    (Some "a11ce") w_shop (Some alice) Hu eq_refl)).
  - exact (proj2 (update_delete_forbidden "020202020202020202020202"
                    (ProductUpdateRequest.Make None None None None None None)
                    (Some "a11ce") w_shop (Some alice) Hu eq_refl)).
Defined.

(** X6. The token a registration returned, when no session stored before
    had it, resolves to the user just registered, a customer: with it,
    product creation, update and deletion all raise their 403 and leave the
    state as it is. *)
Theorem registered_user_is_forbidden (payload : RegisterRequest.t) (w w1 : World)
    (token : string) (out : Out.user) :
  register payload w = (Return (TokenUser token out), w1) ->
  find (fun s => String.eqb (Session.token s) token) (session (db w)) = None ->
  user_of (Some token) w1 = (Return (Some (registered payload w)), w1)
  /\ forall (product_id : string) (p : ProductCreateRequest.t)
            (q : ProductUpdateRequest.t),
       create_product p (Some token) w1
       = (Raise (HTTPException 403 "Hanya admin yang dapat menambah produk"), w1)
       /\ update_product product_id q (Some token) w1
          = (Raise (HTTPException 403 "Hanya admin yang dapat mengubah produk"), w1)
       /\ delete_product product_id (Some token) w1
          = (Raise (HTTPException 403 "Hanya admin yang dapat menghapus produk"), w1).
Proof.
  intros E Htoken.
  destruct (register_returned _ _ _ _ E) as (Hfree & Hname & Hu & Hs).
  rewrite (register_run _ _ Hfree Hname Hu Hs) in E.
  injection E as Et Eo Ew. subst token out.
  assert (R : user_of (Some (register_token w)) w1
              = (Return (Some (registered payload w)), w1)).
  { subst w1. unfold user_of. unfold register_token at 1. rewrite token_truthy.
    unfold get_user_from_token, bind, find_one at 1.
    cbn [docs db_session db session].
    rewrite (find_app_miss _ _ _ Htoken)
      by (cbn [Session.token]; apply String.eqb_refl).
    cbn [Session.user_id]. rewrite ObjectId_parse_str.
    unfold find_one. cbn [docs db_user db user].
    unfold new_id in Hu. cbn [docs db_user] in Hu.
    rewrite (find_app_miss _ _ _ Hu); [reflexivity|].
    exact (by_id_refl db_user (registered payload w)). }
  split; [exact R|]. intros product_id p q.
  assert (Hr : fst (user_of (Some (register_token w)) w1)
               = Return (Some (registered payload w))) by now rewrite R.
  split; [exact (create_product_403 _ _ _ _ Hr eq_refl)|].
  split; [exact (update_product_403 _ _ _ _ _ Hr eq_refl)|].
  exact (delete_product_403 _ _ _ _ Hr eq_refl).
Qed.

Lemma registered_user_is_forbidden_witness :
  find (fun s => String.eqb (Session.token s) (register_token w0)) (session (db w0))
  = None
  /\ create_product
       (ProductCreateRequest.Make "Rice" twelve_and_a_half None None None true)
       (Some (register_token w0)) (snd (register alice_request w0))
     = (Raise (HTTPException 403 "Hanya admin yang dapat menambah produk"),
        snd (register alice_request w0)).
Proof.
  assert (Hn : (2 <= str_len "Alice")%nat) by (cbn; lia).
  pose proof (register_run alice_request w0 eq_refl Hn eq_refl eq_refl) as E.
  split; [reflexivity|].
  refine (proj1 (proj2 (registered_user_is_forbidden alice_request w0 _ _ _ _ eq_refl)
                   "" _ (ProductUpdateRequest.Make None None None None None None))).
  rewrite E. reflexivity.
Defined.

(** ** Login that fails *)

Lemma verify_password_quiet (password stored : string) (w : World) :
  db (snd (verify_password password stored w)) = db w
  /\ journal (snd (verify_password password stored w)) = journal w.
Proof.
  split; [apply reads_verify_password|].
  destruct (sends_verify_password password stored w) as (ws & E & Hl).
  destruct ws; [now rewrite E, app_nil_r|cbn in Hl; lia].
Qed.

Lemma verify_password_run (password stored : string) (w : World) :
  exists b, verify_password password stored w
            = (Return b, snd (verify_password password stored w)).
Proof.
  destruct (verify_password_returns password stored w) as [b Hb].
  exists b. rewrite <- Hb. now destruct (verify_password password stored w).
Qed.

(** X7. Login with an address no stored user has, or with a password that
    does not verify against the hash of the first user with the address,
    raises the 401; no session is created: the store is as it was and no
    write is sent. *)
Theorem login_rejected (payload : LoginRequest.t) (w : World) :
  find (fun x => String.eqb (User.email x) (LoginRequest.email payload))
       (user (db w)) = None
  \/ (exists u,
        find (fun x => String.eqb (User.email x) (LoginRequest.email payload))
             (user (db w)) = Some u
        /\ fst (verify_password (LoginRequest.password payload)
                  (match User.password_hash u with Some h => h | None => "" end) w)
           = Return false) ->
  fst (login payload w) = Raise (HTTPException 401 "Email atau password salah")
  /\ db (snd (login payload w)) = db w
  /\ journal (snd (login payload w)) = journal w.
Proof.
  intros [Hnone|(u & Hu & Hv)]; unfold login;
    rewrite (run_bind _ _ _ _ _ (get_user_by_email_run _ w)).
  - rewrite Hnone. repeat split.
  - rewrite Hu.
    destruct (verify_password_quiet (LoginRequest.password payload)
                (match User.password_hash u with Some h => h | None => "" end) w)
      as [Hd Hj].
    destruct (verify_password_run (LoginRequest.password payload)
                (match User.password_hash u with Some h => h | None => "" end) w)
      as [b Hb].
    rewrite Hb in Hv. cbn [fst] in Hv. injection Hv as ->.
    rewrite (run_bind _ _ _ _ _ Hb). cbn [fst snd raise wrong_login].
    repeat split; assumption.
Qed.

Lemma login_rejected_witness :
  (exists u,
      find (fun x => String.eqb (User.email x) "alice@example.com") (user (db w_shop))
      = Some u
      /\ fst (verify_password "hunter3"
                (match User.password_hash u with Some h => h | None => "" end) w_shop)
         = Return false)
  /\ fst (login (LoginRequest.Make "alice@example.com" "hunter3") w_shop)
     = Raise (HTTPException 401 "Email atau password salah").
Proof.
  assert (H : exists u,
      find (fun x => String.eqb (User.email x) "alice@example.com") (user (db w_shop))
      = Some u
      /\ fst (verify_password "hunter3"
                (match User.password_hash u with Some h => h | None => "" end) w_shop)
         = Return false).
  { exists alice. split; vm_compute; reflexivity. }
  split; [exact H|].
  exact (proj1 (login_rejected (LoginRequest.Make "alice@example.com" "hunter3")
                  w_shop (or_intror H))).
Defined.

(** X8. A stored user whose document has no [password_hash] cannot log in:
    the default [""] does not split in two, the check is [False] for every
    password, and login raises the 401 with the state as it was. *)
Theorem login_without_password_hash (payload : LoginRequest.t) (w : World)
    (u : User.doc) :
  find (fun x => String.eqb (User.email x) (LoginRequest.email payload))
       (user (db w)) = Some u ->
  User.password_hash u = None ->
  login payload w = (Raise (HTTPException 401 "Email atau password salah"), w).
Proof.
  intros Hu Hh. unfold login.
  rewrite (run_bind _ _ _ _ _ (get_user_by_email_run _ w)). rewrite Hu, Hh.
  reflexivity.
Qed.

Lemma login_without_password_hash_witness :
  find (fun x => String.eqb (User.email x) "carol@example.com") (user (db w_carol))
  = Some carol
  /\ User.password_hash carol = None
  /\ login (LoginRequest.Make "carol@example.com" "anything") w_carol
     = (Raise (HTTPException 401 "Email atau password salah"), w_carol).
Proof.
  split; [reflexivity|]. split; [reflexivity|].
  exact (login_without_password_hash
           (LoginRequest.Make "carol@example.com" "anything") w_carol carol
           eq_refl eq_refl).
Defined.

(** ** Users and sessions are only added *)

Lemma extends_reads {A} (m : M A) : reads m -> extends m.
Proof.
  intros H w. exists [], []. rewrite H, !app_nil_r. repeat split. constructor.
Qed.

Lemma extends_ret {A} (a : A) : extends (ret a).
Proof. now apply extends_reads. Qed.

Lemma extends_raise {A} (e : exn) : extends (@raise A e).
Proof. now apply extends_reads. Qed.

Lemma extends_bind {A B} (m : M A) (k : A -> M B) :
  extends m -> (forall x, extends (k x)) -> extends (bind m k).
Proof.
  intros Hm Hk w. unfold bind. destruct (Hm w) as (us & ss & Eu & Es & Hc).
  destruct (m w) as [[x|e] w1]; cbn [snd] in *; [|exists us, ss; auto].
  destruct (Hk x w1) as (us' & ss' & Eu' & Es' & Hc').
  exists (us ++ us')%list, (ss ++ ss')%list.
  rewrite Eu', Eu, Es', Es, !app_assoc. repeat split.
  apply Forall_app. split; assumption.
Qed.

Lemma extends_bind_ret {A B} (a : A) (k : A -> M B) :
  extends (k a) -> extends (bind (ret a) k).
Proof. intros H w. exact (H w). Qed.

Lemma extends_bind_raise {A B} (e : exn) (k : A -> M B) :
  extends (bind (raise e) k).
Proof. intros w. exact (extends_raise (A:=B) e w). Qed.

Lemma extends_insert_session (document : ObjectId -> Session.doc) :
  extends (insert_one db_session document).
Proof.
  intros w. rewrite insert_one_run.
  destruct (find _ (docs db_session (db w))).
  - exists [], []. cbn [snd db]. rewrite !app_nil_r. repeat split. constructor.
  - exists [], [document (MkObjectId (pending 12 w) eq_refl)].
    cbn [snd db with_docs db_session user session docs]. rewrite app_nil_r.
    repeat split. constructor.
Qed.

Lemma extends_insert_customer (document : ObjectId -> User.doc) :
  (forall oid, customer (document oid)) ->
  extends (insert_one db_user document).
Proof.
  intros Hc w. rewrite insert_one_run.
  destruct (find _ (docs db_user (db w))).
  - exists [], []. cbn [snd db]. rewrite !app_nil_r. repeat split. constructor.
  - exists [document (MkObjectId (pending 12 w) eq_refl)], [].
    cbn [snd db with_docs db_user user session docs]. rewrite app_nil_r.
    repeat split. constructor; [apply Hc|constructor].
Qed.

Lemma extends_product_write {A} (m : M A) :
  (forall w, exists l, db (snd (m w)) = with_docs db_product l (db w)) ->
  extends m.
Proof.
  intros H w. destruct (H w) as [l E]. exists [], []. rewrite E.
  cbn [with_docs db_product user session]. rewrite !app_nil_r.
  repeat split. constructor.
Qed.

Lemma extends_create_session (user_id : string) : extends (create_session user_id).
Proof.
  unfold create_session. apply extends_bind; [now apply extends_reads|].
  intros token. apply extends_bind; [apply extends_insert_session|].
  intros; apply extends_ret.
Qed.

(** Whatever the request, the user and session collections keep what they
    had, in order, and a user that is added is an active customer. *)
Lemma app_extends (r : Request) : extends (app r).
Proof.
  destruct r as [| |payload|payload| |payload token|product_id payload token
                |product_id token]; cbn [app].
  - apply extends_ret.
  - apply extends_ret.
  - unfold register. apply extends_bind; [now apply extends_reads|].
    intros [existing|]; [apply extends_raise|].
    apply extends_bind; [apply extends_reads, reads_hash_password|]. intros pwd.
    unfold UserSchema. destruct (Nat.leb _ _); [|apply extends_bind_raise].
    apply extends_bind_ret. apply extends_bind.
    { unfold create_document. apply extends_bind; [|intros; apply extends_ret].
      apply extends_insert_customer. intros oid. split; reflexivity. }
    intros user_id. apply extends_bind; [apply extends_create_session|].
    intros; apply extends_ret.
  - unfold login. apply extends_bind; [now apply extends_reads|].
    intros [user|]; [|apply extends_raise].
    apply extends_bind; [apply extends_reads, reads_verify_password|].
    intros [|]; [|apply extends_raise].
    apply extends_bind; [apply extends_create_session|]. intros; apply extends_ret.
  - apply extends_reads. now intros w.
  - unfold create_product. apply extends_bind; [apply extends_reads, reads_user_of|].
    intros user. destruct (negb (is_admin user)); [apply extends_raise|].
    apply extends_bind.
    { apply extends_reads. intros w. unfold ProductSchema. now destruct (SFleb _ _). }
    intros prod. apply extends_bind; [|intros; apply extends_ret].
    unfold create_document. apply extends_bind; [|intros; apply extends_ret].
    apply extends_product_write. intros w. rewrite insert_one_run.
    destruct (find _ (docs db_product (db w))); eexists.
    + cbn [snd db]. symmetry. apply with_docs_product.
    + reflexivity.
  - unfold update_product. apply extends_bind; [apply extends_reads, reads_user_of|].
    intros user. destruct (negb (is_admin user)); [apply extends_raise|].
    destruct (ProductUpdateRequest.update_data payload) eqn:Hd; [apply extends_raise|].
    apply extends_bind; [apply extends_reads, reads_ObjectId_parse|]. intros oid.
    apply extends_bind.
    { apply extends_product_write. intros w. rewrite update_one_run.
      eexists. reflexivity. }
    intros matched_count.
    destruct (Nat.eqb matched_count 0); [apply extends_raise|].
    apply extends_bind; [apply extends_reads, reads_ObjectId_parse|]. intros oid'.
    apply extends_bind; [now apply extends_reads|].
    intros [doc|]; [apply extends_ret|apply extends_raise].
  - unfold delete_product. apply extends_bind; [apply extends_reads, reads_user_of|].
    intros user. destruct (negb (is_admin user)); [apply extends_raise|].
    apply extends_bind; [apply extends_reads, reads_ObjectId_parse|]. intros oid.
    apply extends_bind.
    { apply extends_product_write. intros w. rewrite delete_one_run.
      eexists. reflexivity. }
    intros deleted_count.
    destruct (Nat.eqb deleted_count 0); [apply extends_raise|apply extends_ret].
Qed.

Lemma customer_not_admin (u : User.doc) : customer u -> is_admin (Some u) = false.
Proof. intros [Hr _]. cbn. now rewrite Hr. Qed.

Lemma no_admin_among_customers (us : list User.doc) :
  Forall customer us -> filter (fun u => is_admin (Some u)) us = [].
Proof.
  induction 1 as [|u us Hu _ IH]; [reflexivity|].
  cbn [filter]. now rewrite (customer_not_admin u Hu).
Qed.

(** X9. No request changes or removes a stored user, and a user that a
    request adds is an active customer: the admins of the store, in
    particular, are the same after any request as before it. *)
Theorem admins_never_change (r : Request) (w : World) :
  exists added,
    user (db (snd (app r w))) = (user (db w) ++ added)%list
    /\ Forall customer added
    /\ filter (fun u => is_admin (Some u)) (user (db (snd (app r w))))
       = filter (fun u => is_admin (Some u)) (user (db w)).
Proof.
  destruct (app_extends r w) as (us & ss & Eu & _ & Hc).
  exists us. split; [exact Eu|]. split; [exact Hc|].
  now rewrite Eu, filter_app, (no_admin_among_customers us Hc), app_nil_r.
Qed.

Lemma find_app_hit {D} (q : D -> bool) (l l' : list D) (d : D) :
  find q l = Some d -> find q (l ++ l') = Some d.
Proof.
  induction l as [|x l IH]; cbn; [discriminate|].
  destruct (q x); auto.
Qed.

(** X10. Nothing revokes a session: a token that resolves to a user
    resolves to the same user after any request whatever. *)
Theorem token_keeps_resolving (r : Request) (w : World) (token : string)
    (u : User.doc) :
  fst (get_user_from_token token w) = Return (Some u) ->
  fst (get_user_from_token token (snd (app r w))) = Return (Some u).
Proof.
  destruct (app_extends r w) as (us & ss & Eu & Es & _).
  generalize dependent (snd (app r w)). intros w1 Eu Es.
  unfold get_user_from_token, bind, find_one at 1 3.
  cbn [docs db_session]. rewrite Es.
  destruct (find _ (session (db w))) as [sess|] eqn:F; [|discriminate].
  rewrite (find_app_hit _ _ ss _ F).
  rewrite (ObjectId_parse_run _ w), (ObjectId_parse_run _ w1).
  rewrite (ObjectId_parse_frame _ w w1).
  destruct (fst (ObjectId_parse (Session.user_id sess) w)) as [oid|e];
    [|discriminate].
  unfold find_one. cbn [fst docs db_user]. rewrite Eu.
  intros H. injection H as H. now rewrite (find_app_hit _ _ us _ H).
Qed.

Lemma token_keeps_resolving_witness :
  fst (get_user_from_token "b0b" w_shop) = Return (Some bob)
  /\ fst (get_user_from_token "b0b"
            (snd (app (DELETE_products "020202020202020202020202" (Some "b0b"))
                    w_shop)))
     = Return (Some bob).
Proof.
  assert (H : fst (get_user_from_token "b0b" w_shop) = Return (Some bob))
    by (vm_compute; reflexivity).
  split; [exact H|].
  exact (token_keeps_resolving
           (DELETE_products "020202020202020202020202" (Some "b0b"))
           w_shop "b0b" bob H).
Defined.

(** ** Products change only for an admin *)

Lemma keeps_products_reads {A} (m : M A) : reads m -> keeps_products m.
Proof. intros H w. now rewrite H. Qed.

Lemma keeps_products_bind {A B} (m : M A) (k : A -> M B) :
  keeps_products m -> (forall x, keeps_products (k x)) -> keeps_products (bind m k).
Proof.
  intros Hm Hk w. unfold bind. specialize (Hm w).
  destruct (m w) as [[x|e] w1]; cbn [snd] in *; [|exact Hm].
  now rewrite Hk.
Qed.

Lemma keeps_products_insert_user (document : ObjectId -> User.doc) :
  keeps_products (insert_one db_user document).
Proof.
  intros w. rewrite insert_one_run.
  now destruct (find _ (docs db_user (db w))).
Qed.

Lemma keeps_products_insert_session (document : ObjectId -> Session.doc) :
  keeps_products (insert_one db_session document).
Proof.
  intros w. rewrite insert_one_run.
  now destruct (find _ (docs db_session (db w))).
Qed.

Lemma keeps_products_create_session (user_id : string) :
  keeps_products (create_session user_id).
Proof.
  unfold create_session. apply keeps_products_bind; [now apply keeps_products_reads|].
  intros token. apply keeps_products_bind; [apply keeps_products_insert_session|].
  intros; now apply keeps_products_reads.
Qed.

Lemma keeps_products_register (payload : RegisterRequest.t) :
  keeps_products (register payload).
Proof.
  unfold register. apply keeps_products_bind; [now apply keeps_products_reads|].
  intros [existing|]; [now apply keeps_products_reads|].
  apply keeps_products_bind; [apply keeps_products_reads, reads_hash_password|].
  intros pwd. apply keeps_products_bind.
  { apply keeps_products_reads. intros w. unfold UserSchema.
    now destruct (Nat.leb _ _). }
  intros user. apply keeps_products_bind.
  { unfold create_document.
    apply keeps_products_bind; [apply keeps_products_insert_user|].
    intros; now apply keeps_products_reads. }
  intros user_id. apply keeps_products_bind; [apply keeps_products_create_session|].
  intros; now apply keeps_products_reads.
Qed.

Lemma keeps_products_login (payload : LoginRequest.t) :
  keeps_products (login payload).
Proof.
  unfold login. apply keeps_products_bind; [now apply keeps_products_reads|].
  intros [user|]; [|now apply keeps_products_reads].
  apply keeps_products_bind; [apply keeps_products_reads, reads_verify_password|].
  intros [|]; [|now apply keeps_products_reads].
  apply keeps_products_bind; [apply keeps_products_create_session|].
  intros; now apply keeps_products_reads.
Qed.

(** When the caller cannot be resolved, the exception leaves the handler
    from the state it started in. *)
Lemma protected_raise (r : Request) (token : option string) (w : World) (e : exn) :
  caller r = Some token -> fst (user_of token w) = Raise e ->
  app r w = (Raise e, w).
Proof.
  intros Hc He.
  destruct r; cbn [caller] in Hc; try discriminate; injection Hc as ->; cbn [app];
    [unfold create_product|unfold update_product|unfold delete_product];
    unfold bind; rewrite user_of_run, He; reflexivity.
Qed.

Lemma protected_403 (r : Request) (token : option string) (w : World)
    (user : option User.doc) :
  caller r = Some token -> fst (user_of token w) = Return user ->
  is_admin user = false ->
  snd (app r w) = w.
Proof.
  intros Hc Hu Ha.
  destruct r; cbn [caller] in Hc; try discriminate; injection Hc as ->; cbn [app].
  - now rewrite (create_product_403 _ _ _ _ Hu Ha).
  - now rewrite (update_product_403 _ _ _ _ _ Hu Ha).
  - now rewrite (delete_product_403 _ _ _ _ Hu Ha).
Qed.

(** X11. A request leaves the product collection as it was, unless it is a
    creation, an update or a deletion whose token resolves to an admin:
    registration, login and the public routes never touch products, and the
    protected ones do nothing for anybody else. *)
Theorem products_change_only_for_admin (r : Request) (w : World) :
  product (db (snd (app r w))) = product (db w)
  \/ exists token user,
       caller r = Some token
       /\ fst (user_of token w) = Return user
       /\ is_admin user = true.
Proof.
  destruct (caller r) as [token|] eqn:Hc.
  - destruct (fst (user_of token w)) as [user|e] eqn:Hu.
    + destruct (is_admin user) eqn:Ha.
      * right. exists token, user. auto.
      * left. now rewrite (protected_403 r token w user Hc Hu Ha).
    + left. now rewrite (protected_raise r token w e Hc Hu).
  - left. destruct r; cbn [caller] in Hc; try discriminate; cbn [app].
    + reflexivity.
    + reflexivity.
    + apply keeps_products_register.
    + apply keeps_products_login.
    + reflexivity.
Qed.

(** ** What a product mutation stores *)

Lemma set_fields_merged (payload : ProductUpdateRequest.t) (d : Product.doc) :
  Product.set_fields (ProductUpdateRequest.update_data payload) d
  = Product.Doc (Product._id d) (merged payload (Product.data d)).
Proof.
  destruct payload as [[n|] [p|] [u|] [ds|] [i|] [s|]], d as [oid [n0 d0 p0 u0 i0 s0]];
    reflexivity.
Qed.

Lemma update_first_hit {D} (q : D -> bool) (f : D -> D) (l : list D) (d : D) :
  (forall x, q (f x) = q x) -> find q l = Some d ->
  snd (update_first q f l) = 1%nat
  /\ find q (fst (update_first q f l)) = Some (f d).
Proof.
  intros Hq. induction l as [|x l IH]; cbn; [discriminate|].
  destruct (q x) eqn:Q.
  - intros E. injection E as ->. cbn. now rewrite Hq, Q.
  - intros E. destruct (IH E) as [Hn Hf].
    destruct (update_first q f l) as [l' n]. cbn in *. now rewrite Q.
Qed.

Lemma update_first_other {D} (q q' : D -> bool) (f : D -> D) (l : list D) :
  (forall x, q x = true -> q' x = false /\ q' (f x) = false) ->
  find q' (fst (update_first q f l)) = find q' l.
Proof.
  intros H. induction l as [|x l IH]; cbn; [reflexivity|].
  destruct (q x) eqn:Q.
  - destruct (H x Q) as [H1 H2]. cbn. now rewrite H1, H2.
  - destruct (update_first q f l) as [l' n]. cbn in *. now rewrite IH.
Qed.

Lemma delete_first_other {D} (q q' : D -> bool) (l : list D) :
  (forall x, q x = true -> q' x = false) ->
  find q' (fst (delete_first q l)) = find q' l.
Proof.
  intros H. induction l as [|x l IH]; cbn; [reflexivity|].
  destruct (q x) eqn:Q.
  - cbn. now rewrite (H x Q).
  - destruct (delete_first q l) as [l' n]. cbn in *. now rewrite IH.
Qed.

Lemma by_id_other {D} (C : Collection D) (oid oid' : ObjectId) (x : D) :
  binary oid' <> binary oid -> by_id C oid x = true -> by_id C oid' x = false.
Proof.
  intros Hne Q. apply by_id_true in Q.
  destruct (by_id C oid' x) eqn:Q'; [|reflexivity].
  apply by_id_true in Q'. congruence.
Qed.

(** X12. An admin's update with a body that is not empty, of a product the
    collection has, is answered with the product after the update: the
    fields given in the body have their new values, every other field and
    the identifier are as they were. That document is what the collection
    then holds under the identifier; products with another identifier,
    users and sessions are as they were. *)
Theorem update_product_sets_fields
    (product_id : string) (payload : ProductUpdateRequest.t)
    (token : option string) (w : World) (who : option User.doc)
    (oid : ObjectId) (d : Product.doc) :
  fst (user_of token w) = Return who -> is_admin who = true ->
  ProductUpdateRequest.update_data payload <> [] ->
  fst (ObjectId_parse product_id w) = Return oid ->
  find (by_id db_product oid) (product (db w)) = Some d ->
  exists w1,
    update_product product_id payload token w
    = (Return (Updated (Out.Product (ObjectId_str (Product._id d))
                          (merged payload (Product.data d)))), w1)
    /\ find (by_id db_product oid) (product (db w1))
       = Some (Product.Doc (Product._id d) (merged payload (Product.data d)))
    /\ (forall oid', binary oid' <> binary oid ->
          find (by_id db_product oid') (product (db w1))
          = find (by_id db_product oid') (product (db w)))
    /\ user (db w1) = user (db w)
    /\ session (db w1) = session (db w).
Proof.
  intros Hu Ha Hd Ho Hf. eexists.
  rewrite (update_product_run _ _ _ _ _ _ Hu Ha Hd Ho). cbn zeta.
  destruct (update_first_hit (by_id db_product oid)
              (Product.set_fields (ProductUpdateRequest.update_data payload))
              (product (db w)) d (fun x => eq_refl) Hf) as [Hn Hfound].
  rewrite Hn, Hfound. cbn [Nat.eqb]. rewrite set_fields_merged.
  split; [reflexivity|]. cbn [db product user session with_docs db_product].
  split; [now rewrite Hfound, set_fields_merged|].
  split; [|split; reflexivity].
  intros oid' Hne. apply update_first_other. intros x Q.
  split; [exact (by_id_other db_product oid oid' x Hne Q)|].
  exact (by_id_other db_product oid oid' x Hne Q).
Qed.

Lemma update_product_sets_fields_witness :
  fst (user_of (Some "b0b") w_shop) = Return (Some bob)
  /\ fst (ObjectId_parse "020202020202020202020202" w_shop) = Return (oid_of x02)
  /\ find (by_id db_product (oid_of x02)) (product (db w_shop)) = Some rice
  /\ exists w1,
       update_product "020202020202020202020202"
         (ProductUpdateRequest.Make None None (Some "kg") None None (Some false))
         (Some "b0b") w_shop
       = (Return (Updated (Out.Product "020202020202020202020202"
                             (Product.Fields "Rice" None twelve_and_a_half
                                (Some "kg") None false))), w1).
Proof.
  assert (Hu : fst (user_of (Some "b0b") w_shop) = Return (Some bob))
    by (vm_compute; reflexivity).
  assert (Ho : fst (ObjectId_parse "020202020202020202020202" w_shop)
               = Return (oid_of x02)) by (vm_compute; reflexivity).
  assert (Hf : find (by_id db_product (oid_of x02)) (product (db w_shop)) = Some rice)
    by (vm_compute; reflexivity).
  repeat (split; [assumption|]).
  destruct (update_product_sets_fields "020202020202020202020202"
              (ProductUpdateRequest.Make None None (Some "kg") None None (Some false))
              (Some "b0b") w_shop (Some bob) (oid_of x02) rice Hu eq_refl
              ltac:(discriminate) Ho Hf) as (w1 & E & _).
  exists w1. exact E.
Defined.

Lemma ObjectId_str_inj (a b : ObjectId) : ObjectId_str a = ObjectId_str b -> a = b.
Proof. intros E. apply ObjectId_eq, hexlify_inj, E. Qed.

Lemma delete_first_hit {D} (q : D -> bool) (l : list D) (d : D) :
  find q l = Some d -> snd (delete_first q l) = 1%nat.
Proof. intros H. now rewrite delete_first_count, H. Qed.

(** X13. An admin's deletion of a product the collection has is answered
    [{"ok": true}]; under the [_id] index no product has the identifier
    afterwards, so that the list no longer shows it, and a product with
    another identifier is found as before. *)
Theorem delete_product_removes
    (product_id : string) (token : option string) (w : World)
    (who : option User.doc) (oid : ObjectId) (d : Product.doc) :
  fst (user_of token w) = Return who -> is_admin who = true ->
  fst (ObjectId_parse product_id w) = Return oid ->
  find (by_id db_product oid) (product (db w)) = Some d ->
  unique_ids db_product (db w) ->
  exists w1,
    delete_product product_id token w = (Return Ok, w1)
    /\ find (by_id db_product oid) (product (db w1)) = None
    /\ (forall out, In out (map externalize (product (db w1))) ->
          Out.product_id out <> ObjectId_str oid)
    /\ (forall oid', binary oid' <> binary oid ->
          find (by_id db_product oid') (product (db w1))
          = find (by_id db_product oid') (product (db w)))
    /\ user (db w1) = user (db w)
    /\ session (db w1) = session (db w).
Proof.
  intros Hu Ha Ho Hf ND. eexists.
  rewrite (delete_product_run _ _ _ _ _ Hu Ha Ho).
  rewrite (delete_first_hit _ _ _ Hf). cbn [Nat.eqb].
  split; [reflexivity|]. cbn [db product user session with_docs db_product].
  pose proof (delete_first_gone db_product oid (product (db w)) ND) as Hgone.
  split; [exact Hgone|]. split; [|split; [|split; reflexivity]].
  - intros out Hin E. apply in_map_iff in Hin as (x & <- & Hin).
    unfold externalize in E. cbn [Out.product_id] in E.
    apply ObjectId_str_inj in E.
    pose proof (find_none _ _ Hgone x Hin) as Q. rewrite <- E in Q.
    pose proof (by_id_refl db_product x) as R. cbn [doc_id db_product] in R.
    congruence.
  - intros oid' Hne. apply delete_first_other. intros x Q.
    exact (by_id_other db_product oid oid' x Hne Q).
Qed.

Lemma delete_product_removes_witness :
  fst (user_of (Some "b0b") w_shop) = Return (Some bob)
  /\ fst (ObjectId_parse "020202020202020202020202" w_shop) = Return (oid_of x02)
  /\ find (by_id db_product (oid_of x02)) (product (db w_shop)) = Some rice
  /\ unique_ids db_product (db w_shop)
  /\ exists w1,
       delete_product "020202020202020202020202" (Some "b0b") w_shop = (Return Ok, w1)
       /\ find (by_id db_product (oid_of x02)) (product (db w1)) = None.
Proof.
  assert (Hu : fst (user_of (Some "b0b") w_shop) = Return (Some bob))
    by (vm_compute; reflexivity).
  assert (Ho : fst (ObjectId_parse "020202020202020202020202" w_shop)
               = Return (oid_of x02)) by (vm_compute; reflexivity).
  assert (Hf : find (by_id db_product (oid_of x02)) (product (db w_shop)) = Some rice)
    by (vm_compute; reflexivity).
  assert (ND : unique_ids db_product (db w_shop)).
  { unfold unique_ids. cbn. constructor; [intros []|constructor]. }
  repeat (split; [assumption|]).
  destruct (delete_product_removes "020202020202020202020202" (Some "b0b") w_shop
              (Some bob) (oid_of x02) rice Hu eq_refl Ho Hf ND)
    as (w1 & E & Hgone & _).
  exists w1. split; assumption.
Defined.

Lemma ProductSchema_run (name : string) (description : option string)
    (price : spec_float) (unit image : option string) (in_stock : bool) (w : World) :
  SFleb zero price = true ->
  ProductSchema name description price unit image in_stock w
  = (Return (Product.Fields name description price unit image in_stock), w).
Proof. intros H. unfold ProductSchema. now rewrite H. Qed.

(** X14. An admin's creation of a product with a price that is at least
    zero, when the identifier drawn is new, is answered with that
    identifier as a string and the body; the product is appended to the
    collection with the fields of the body, and the list then ends with
    it, under the same identifier. *)
Theorem create_product_then_listed
    (payload : ProductCreateRequest.t) (token : option string) (w : World)
    (who : option User.doc) :
  fst (user_of token w) = Return who -> is_admin who = true ->
  SFleb zero (ProductCreateRequest.price payload) = true ->
  new_id db_product (MkObjectId (pending 12 w) eq_refl) (db w) ->
  exists w1,
    create_product payload token w
    = (Return (Created (ObjectId_str (MkObjectId (pending 12 w) eq_refl)) payload), w1)
    /\ product (db w1)
       = (product (db w)
          ++ [Product.Doc (MkObjectId (pending 12 w) eq_refl) (fields_of payload)])%list
    /\ list_products w1
       = (Return (Products
                    (map externalize (product (db w))
                     ++ [Out.Product (ObjectId_str (MkObjectId (pending 12 w) eq_refl))
                           (fields_of payload)])), w1).
Proof.
  intros Hu Ha Hp Hnew. eexists. unfold create_product.
  rewrite (run_bind _ _ _ _ _ (user_of_returns _ _ _ Hu)). rewrite Ha. cbn [negb].
  rewrite (run_bind _ _ _ _ _ (ProductSchema_run _ _ _ _ _ _ _ Hp)).
  rewrite (run_bind _ _ _ _ _ (create_document_run db_product _ w Hnew)).
  split; [reflexivity|]. cbn [db product with_docs db_product docs].
  split; [reflexivity|].
  unfold list_products, get_documents, bind, find_all, ret.
  cbn [docs db_product db product]. now rewrite map_app.
Qed.

Lemma create_product_then_listed_witness :
  fst (user_of (Some "b0b") w_shop) = Return (Some bob)
  /\ SFleb zero twelve_and_a_half = true
  /\ new_id db_product (MkObjectId (pending 12 w_shop) eq_refl) (db w_shop)
  /\ exists w1,
       create_product
         (ProductCreateRequest.Make "Tea" twelve_and_a_half None None None true)
         (Some "b0b") w_shop
       = (Return (Created (ObjectId_str (MkObjectId (pending 12 w_shop) eq_refl))
                    (ProductCreateRequest.Make "Tea" twelve_and_a_half None None
                       None true)), w1).
Proof.
  assert (Hu : fst (user_of (Some "b0b") w_shop) = Return (Some bob))
    by (vm_compute; reflexivity).
  assert (Hn : new_id db_product (MkObjectId (pending 12 w_shop) eq_refl) (db w_shop))
    by (vm_compute; reflexivity).
  split; [exact Hu|]. split; [reflexivity|]. split; [exact Hn|].
  destruct (create_product_then_listed
              (ProductCreateRequest.Make "Tea" twelve_and_a_half None None None true)
              (Some "b0b") w_shop (Some bob) Hu eq_refl eq_refl Hn)
    as (w1 & E & _).
  exists w1. exact E.
Defined.

Lemma find_present {D} (q : D -> bool) (l : list D) (d : D) :
  In d l -> q d = true -> exists d', find q l = Some d'.
Proof.
  intros Hin Q. destruct (find q l) as [d'|] eqn:F; [eauto|].
  now rewrite (find_none _ _ F d Hin) in Q.
Qed.

(** X15. The identifiers the product list shows are the ones the protected
    routes take: for an admin, deleting under the [id] of any product
    listed is answered [{"ok": true}], and an update under it with a body
    that is not empty is answered with a product of the same [id]. *)
Theorem listed_product_is_addressable
    (token : option string) (w : World) (who : option User.doc)
    (result : list Out.product) (out : Out.product) :
  fst (user_of token w) = Return who -> is_admin who = true ->
  fst (list_products w) = Return (Products result) -> In out result ->
  fst (delete_product (Out.product_id out) token w) = Return Ok
  /\ forall payload,
       ProductUpdateRequest.update_data payload <> [] ->
       exists fields,
         fst (update_product (Out.product_id out) payload token w)
         = Return (Updated (Out.Product (Out.product_id out) fields)).
Proof.
  intros Hu Ha Hl Hin.
  unfold list_products, get_documents, bind, find_all, ret in Hl.
  cbn [fst docs db_product] in Hl. injection Hl as <-.
  apply in_map_iff in Hin as (d & <- & Hin).
  unfold externalize. cbn [Out.product_id].
  assert (Ho : fst (ObjectId_parse (ObjectId_str (Product._id d)) w)
               = Return (Product._id d)) by now rewrite ObjectId_parse_str.
  destruct (find_present (by_id db_product (Product._id d)) (product (db w)) d Hin
              (by_id_refl db_product d)) as [d' Hf].
  assert (Eid : Product._id d' = Product._id d).
  { apply find_some in Hf as [_ Q]. apply by_id_true in Q. now apply ObjectId_eq. }
  split.
  - rewrite (delete_product_run _ _ _ _ _ Hu Ha Ho).
    now rewrite (delete_first_hit _ _ _ Hf).
  - intros payload Hd. exists (merged payload (Product.data d')).
    rewrite (update_product_run _ _ _ _ _ _ Hu Ha Hd Ho). cbn zeta.
    destruct (update_first_hit (by_id db_product (Product._id d))
                (Product.set_fields (ProductUpdateRequest.update_data payload))
                (product (db w)) d' (fun x => eq_refl) Hf) as [Hn Hfound].
    rewrite Hn, Hfound. cbn [Nat.eqb fst]. rewrite set_fields_merged.
    unfold externalize. cbn [Product._id Product.data]. now rewrite Eid.
Qed.

Lemma listed_product_is_addressable_witness :
  fst (user_of (Some "b0b") w_shop) = Return (Some bob)
  /\ fst (list_products w_shop) = Return (Products [externalize rice])
  /\ fst (delete_product (Out.product_id (externalize rice)) (Some "b0b") w_shop)
     = Return Ok.
Proof.
  assert (Hu : fst (user_of (Some "b0b") w_shop) = Return (Some bob))
    by (vm_compute; reflexivity).
  split; [exact Hu|]. split; [reflexivity|].
  exact (proj1 (listed_product_is_addressable (Some "b0b") w_shop (Some bob)
                  [externalize rice] (externalize rice) Hu eq_refl eq_refl
                  (or_introl eq_refl))).
Defined.

(** ** The shape of a stored hash *)

Lemma str_len_hexdigest (msg : list byte) : str_len (SHA256.hexdigest msg) = 64%nat.
Proof.
  unfold SHA256.hexdigest. rewrite str_len_hexlify. unfold SHA256.digest.
  rewrite length_map. generalize (SHA256.sha256_regs msg) as s. intros s.
  reflexivity.
Qed.

Lemma str_len_app (a b : string) : str_len (a ++ b) = (str_len a + str_len b)%nat.
Proof.
  induction a as [|c a IH]; [reflexivity|].
  cbn [append str_len]. rewrite IH.
  now destruct ((128 <=? N_of_ascii c)%N && (N_of_ascii c <? 192)%N).
Qed.

(** X16. What [hash_password] returns without a salt has one shape: sixteen
    characters of salt, the separator, sixty-four of digest, eighty-one in
    all; it splits at the separator into exactly the salt and the digest,
    and the salt read back from hexadecimal is the eight bytes drawn. *)
Theorem hash_password_shape (password : string) (w : World) :
  exists salt digest,
    hash_password password None w = (Return (salt ++ "$" ++ digest), advance 8 w)
    /\ split "$" (salt ++ "$" ++ digest) = [salt; digest]
    /\ str_len salt = 16%nat
    /\ str_len digest = 64%nat
    /\ str_len (salt ++ "$" ++ digest) = 81%nat
    /\ Hex.fromhex salt = Some (pending 8 w).
Proof.
  exists (fresh_salt w), (SHA256.hexdigest (encode (fresh_salt w ++ password))).
  split; [apply hash_password_unsalted|].
  split; [apply (split_stored_form _ _ (fresh_salt_no_dollar w))|].
  assert (Hs : str_len (fresh_salt w) = 16%nat)
    by (unfold fresh_salt; now rewrite str_len_hexlify).
  split; [exact Hs|]. split; [apply str_len_hexdigest|].
  split; [|apply fromhex_hexlify].
  rewrite !str_len_app, Hs, str_len_hexdigest. reflexivity.
Qed.

Lemma length_split (sep : ascii) (s : string) :
  List.length (split sep s) = S (count sep s).
Proof.
  induction s as [|c s IH]; [reflexivity|].
  cbn [split count]. destruct (Ascii.eqb c sep); [cbn; now rewrite IH|].
  destruct (split sep s) as [|p ps]; [discriminate IH|exact IH].
Qed.

Lemma count_app (c : ascii) (a b : string) :
  count c (a ++ b) = (count c a + count c b)%nat.
Proof.
  induction a as [|x a IH]; [reflexivity|].
  cbn [append count]. rewrite IH. now destruct (Ascii.eqb x c).
Qed.

Lemma count_contains (c : ascii) (s : string) :
  contains c s = true -> (1 <= count c s)%nat.
Proof.
  induction s as [|x s IH]; cbn; [discriminate|].
  destruct (Ascii.eqb x c); cbn; [lia|exact IH].
Qed.

(** X17. With a salt that is given and not empty, the stored form verifies
    against its own password exactly when the salt holds no separator: a
    salt with a ["$"] makes a stored form that splits in three or more, and
    that no password verifies against. *)
Theorem explicit_salt_round_trip (password salt : string) (w : World) :
  truthy salt = true ->
  exists stored,
    hash_password password (Some salt) w = (Return stored, w)
    /\ verify_password password stored w
       = (Return (negb (contains "$" salt)), w)
    /\ (contains "$" salt = true ->
        forall other w2, verify_password other stored w2 = (Return false, w2)).
Proof.
  intros Ht. exists (stored_form salt password).
  split; [exact (hash_password_salted _ _ _ Ht)|].
  destruct (contains "$" salt) eqn:Hc; cbn [negb].
  - assert (R : forall other w2,
               verify_password other (stored_form salt password) w2
               = (Return false, w2)).
    { intros other w2. unfold verify_password, try_except.
      pose proof (length_split "$" (stored_form salt password)) as L.
      unfold stored_form in L at 2. rewrite count_app in L.
      pose proof (count_contains _ _ Hc) as L1.
      change ("$" ++ ?x) with (String "$" x) in L. cbn [count] in L.
      rewrite Ascii.eqb_refl in L.
      destruct (split "$" (stored_form salt password)) as [|a [|b [|c l]]];
        cbn [List.length] in L; try reflexivity.
      lia. }
    split; [apply R|intros _; exact R].
  - split; [|discriminate].
    rewrite (verify_password_stored_form _ _ _ _ Ht Hc).
    now rewrite String.eqb_refl.
Qed.

Lemma explicit_salt_round_trip_witness :
  truthy "a$b" = true
  /\ exists stored,
       hash_password "hunter2" (Some "a$b") w0 = (Return stored, w0)
       /\ verify_password "hunter2" stored w0 = (Return false, w0).
Proof.
  split; [reflexivity|].
  destruct (explicit_salt_round_trip "hunter2" "a$b" w0 eq_refl)
    as (stored & E & V & _).
  exists stored. split; [exact E|exact V].
Defined.

(** X18. A stored form that begins with the separator, that is, with an
    empty salt, verifies against no password: [hash_password] takes the
    empty salt for a missing one and draws another. *)
Theorem empty_salt_never_verifies (password rest : string) (w : World) :
  fst (verify_password password (String "$" rest) w) = Return false.
Proof.
  destruct (verify_password_returns password (String "$" rest) w) as [[|] Hb];
    [|exact Hb].
  exfalso. destruct (verify_password_accepts _ _ _ Hb) as (salt & Ht & Hc & E).
  destruct salt as [|c salt]; [discriminate Ht|].
  unfold stored_form in E. cbn [append] in E. injection E as <- _.
  cbn [contains] in Hc. now rewrite Ascii.eqb_refl in Hc.
Qed.

(** ** The indexes, on an example *)

Lemma app_keeps_indexes_witness :
  store_ok (db w0)
  /\ store_ok (db (snd (app (POST_auth_register alice_request) w0))).
Proof.
  split; [exact empty_store_ok|].
  exact (app_keeps_indexes (POST_auth_register alice_request) w0 empty_store_ok).
Defined.

(** ** Sessions refer to stored users *)

Lemma preserves_reads {A X} (part : Database -> X) (m : M A) :
  reads m -> preserves part m.
Proof. intros H w. now rewrite H. Qed.

Lemma preserves_bind {A B X} (part : Database -> X) (m : M A) (k : A -> M B) :
  preserves part m -> (forall x, preserves part (k x)) -> preserves part (bind m k).
Proof.
  intros Hm Hk w. unfold bind. specialize (Hm w).
  destruct (m w) as [[x|e] w1]; cbn [snd] in *; [|exact Hm].
  now rewrite Hk.
Qed.

(** The protected routes write to the product collection only. *)
Lemma protected_keeps {X} (part : Database -> X) (r : Request) (token : option string) :
  (forall l d, part (with_docs db_product l d) = part d) ->
  caller r = Some token -> preserves part (app r).
Proof.
  intros Hpart Hc.
  assert (Hi : forall document, preserves part (insert_one db_product document)).
  { intros document w. rewrite insert_one_run.
    destruct (find _ (docs db_product (db w))); [reflexivity|apply Hpart]. }
  assert (Hu : forall q f, preserves part (update_one db_product q f)).
  { intros q f w. rewrite update_one_run. apply Hpart. }
  assert (Hd : forall q, preserves part (delete_one db_product q)).
  { intros q w. rewrite delete_one_run. apply Hpart. }
  destruct r as [| |payload|payload| |payload t|product_id payload t|product_id t];
    cbn [caller] in Hc; try discriminate; cbn [app].
  - unfold create_product.
    apply preserves_bind; [apply preserves_reads, reads_user_of|].
    intros who. destruct (negb (is_admin who)); [now apply preserves_reads|].
    apply preserves_bind.
    { apply preserves_reads. intros w. unfold ProductSchema. now destruct (SFleb _ _). }
    intros prod. apply preserves_bind; [|intros; now apply preserves_reads].
    unfold create_document. apply preserves_bind; [apply Hi|].
    intros; now apply preserves_reads.
  - unfold update_product.
    apply preserves_bind; [apply preserves_reads, reads_user_of|].
    intros who. destruct (negb (is_admin who)); [now apply preserves_reads|].
    destruct (ProductUpdateRequest.update_data payload);
      [now apply preserves_reads|].
    apply preserves_bind; [apply preserves_reads, reads_ObjectId_parse|]. intros oid.
    apply preserves_bind; [apply Hu|]. intros matched_count.
    destruct (Nat.eqb matched_count 0); [now apply preserves_reads|].
    apply preserves_bind; [apply preserves_reads, reads_ObjectId_parse|]. intros oid'.
    apply preserves_bind; [now apply preserves_reads|].
    intros [doc|]; now apply preserves_reads.
  - unfold delete_product.
    apply preserves_bind; [apply preserves_reads, reads_user_of|].
    intros who. destruct (negb (is_admin who)); [now apply preserves_reads|].
    apply preserves_bind; [apply preserves_reads, reads_ObjectId_parse|]. intros oid.
    apply preserves_bind; [apply Hd|]. intros deleted_count.
    destruct (Nat.eqb deleted_count 0); now apply preserves_reads.
Qed.

Lemma session_ok_more (d d' : Database) (s : Session.doc) :
  (forall u, In u (user d) -> In u (user d')) -> session_ok d s -> session_ok d' s.
Proof. intros H (u & Hin & E). exists u. auto. Qed.

Lemma sessions_refer_step (d d' : Database) (added : list Session.doc) :
  (forall u, In u (user d) -> In u (user d')) ->
  session d' = (session d ++ added)%list ->
  Forall (session_ok d') added ->
  sessions_refer d -> sessions_refer d'.
Proof.
  intros Hu Hs Ha H. unfold sessions_refer. rewrite Hs. apply Forall_app. split.
  - eapply Forall_impl; [|exact H]. intros s. now apply session_ok_more.
  - exact Ha.
Qed.

(** The stores a registration can leave: the one it found; that one with
    the user appended, which is where it stops when the session insert is
    refused; that one with the user and the session appended. *)
Lemma register_outcomes (payload : RegisterRequest.t) (w : World) :
  db (snd (register payload w)) = db w
  \/ db (snd (register payload w))
     = MkDatabase (user (db w) ++ [registered payload w]) (product (db w))
         (session (db w))
  \/ db (snd (register payload w))
     = MkDatabase (user (db w) ++ [registered payload w]) (product (db w))
         (session (db w)
          ++ [Session.Doc (register_session_id w)
                (ObjectId_str (register_user_id w)) (register_token w)]).
Proof.
  destruct (find (fun x => String.eqb (User.email x) (RegisterRequest.email payload))
              (user (db w))) as [u|] eqn:Hfree.
  { left. unfold register.
    rewrite (run_bind _ _ _ _ _ (get_user_by_email_run _ w)). now rewrite Hfree. }
  destruct (Nat.leb_spec 2 (str_len (RegisterRequest.name payload))) as [Hname|Hname].
  2:{ left. unfold register.
      rewrite (run_bind _ _ _ _ _ (get_user_by_email_run _ w)). rewrite Hfree.
      rewrite (run_bind _ _ _ _ _ (hash_password_unsalted _ w)).
      unfold UserSchema.
      destruct (Nat.leb_spec 2 (str_len (RegisterRequest.name payload))); [lia|].
      reflexivity. }
  destruct (find (by_id db_user (register_user_id w)) (user (db w))) as [d|] eqn:Fu.
  { left. unfold register.
    rewrite (run_bind _ _ _ _ _ (get_user_by_email_run _ w)). rewrite Hfree.
    rewrite (run_bind _ _ _ _ _ (hash_password_unsalted _ w)).
    rewrite (run_bind _ _ _ _ _ (UserSchema_run _ _ _ _ _ Hname)).
    unfold create_document. unfold bind at 1. unfold bind at 1.
    rewrite insert_one_run. cbn [docs db_user db advance].
    unfold register_user_id in Fu. now rewrite Fu. }
  destruct (find (by_id db_session (register_session_id w)) (session (db w)))
    as [d|] eqn:Fs.
  - right. left. unfold register.
    rewrite (run_bind _ _ _ _ _ (get_user_by_email_run _ w)). rewrite Hfree.
    rewrite (run_bind _ _ _ _ _ (hash_password_unsalted _ w)).
    rewrite (run_bind _ _ _ _ _ (UserSchema_run _ _ _ _ _ Hname)).
    rewrite (run_bind _ _ _ _ _ (create_document_run db_user _ (advance 8 w) Fu)).
    unfold create_session. unfold bind at 1.
    rewrite (run_bind _ _ _ _ _ (token_hex_run 24 _)).
    unfold bind at 1. rewrite insert_one_run.
    cbn [docs db_session db advance session with_docs db_user entropy cursor].
    unfold register_session_id in Fs. unfold pending in *.
    cbn [entropy cursor advance] in *. rewrite Fs. reflexivity.
  - right. right. now rewrite (register_run _ _ Hfree Hname Fu Fs).
Qed.

Lemma create_session_refused (user_id : string) (w : World) (d : Session.doc) :
  find (by_id db_session (MkObjectId (pending 12 (advance 24 w)) eq_refl))
       (session (db w)) = Some d ->
  create_session user_id w
  = (Raise DuplicateKeyError,
     MkWorld (db w) (entropy w) (cursor w + 24 + 12)
       (journal w ++ [InsertOne c_session])).
Proof.
  intros F. unfold create_session.
  rewrite (run_bind _ _ _ _ _ (token_hex_run 24 w)).
  unfold bind. rewrite insert_one_run.
  cbn [docs db_session db advance coll_name entropy cursor journal].
  now rewrite F.
Qed.

(** The stores a login can leave: the one it found, or that one with a
    session of the user looked up appended. *)
Lemma login_outcomes (payload : LoginRequest.t) (w : World) :
  db (snd (login payload w)) = db w
  \/ exists u oid token,
       find (fun x => String.eqb (User.email x) (LoginRequest.email payload))
            (user (db w)) = Some u
       /\ db (snd (login payload w))
          = MkDatabase (user (db w)) (product (db w))
              (session (db w) ++ [Session.Doc oid (ObjectId_str (User._id u)) token]).
Proof.
  unfold login. rewrite (run_bind _ _ _ _ _ (get_user_by_email_run _ w)).
  destruct (find _ (user (db w))) as [u|] eqn:Hu; [|now left].
  destruct (verify_password_run (LoginRequest.password payload)
              (match User.password_hash u with Some h => h | None => "" end) w)
    as [b Hb].
  destruct (verify_password_quiet (LoginRequest.password payload)
              (match User.password_hash u with Some h => h | None => "" end) w)
    as [Hd _].
  rewrite (run_bind _ _ _ _ _ Hb).
  generalize dependent (snd (verify_password (LoginRequest.password payload)
              (match User.password_hash u with Some h => h | None => "" end) w)).
  intros w' _ Hd. destruct b; [|now left].
  destruct (find (by_id db_session (MkObjectId (pending 12 (advance 24 w')) eq_refl))
              (session (db w'))) as [d|] eqn:F.
  - left. now rewrite (run_bind_raise _ _ _ _ _ (create_session_refused _ _ _ F)).
  - right. rewrite (run_bind _ _ _ _ _ (create_session_run _ _ F)).
    eexists u, _, _. split; [reflexivity|].
    cbn [snd ret db]. now rewrite Hd.
Qed.

(** X19. Every request keeps the sessions referring to stored users: a
    session is only ever created for the user just inserted, by
    registration, or for the user just looked up, by login, and no request
    removes a user. *)
Theorem app_keeps_references (r : Request) (w : World) :
  sessions_refer (db w) -> sessions_refer (db (snd (app r w))).
Proof.
  intros H.
  destruct (caller r) as [token|] eqn:Hc.
  { unfold sessions_refer, session_ok.
    rewrite (protected_keeps session r token (fun l d => eq_refl) Hc w).
    eapply Forall_impl; [|exact H]. intros s (u & Hin & E). exists u.
    now rewrite (protected_keeps user r token (fun l d => eq_refl) Hc w). }
  destruct r as [| |payload|payload| |payload t|product_id payload t|product_id t];
    cbn [caller] in Hc; try discriminate; cbn [app]; try exact H.
  - destruct (register_outcomes payload w) as [E|[E|E]]; rewrite E; [exact H| |].
    + apply (sessions_refer_step (db w) _ []); [| |constructor|exact H].
      * intros u Hin. cbn [user]. apply in_or_app. now left.
      * cbn [session]. now rewrite app_nil_r.
    + eapply (sessions_refer_step (db w)); [|reflexivity| |exact H].
      * intros u Hin. cbn [user]. apply in_or_app. now left.
      * constructor; [|constructor]. exists (registered payload w). split.
        -- cbn [user]. apply in_or_app. right. now left.
        -- reflexivity.
  - destruct (login_outcomes payload w) as [E|(u & oid & token & Hu & E)];
      rewrite E; [exact H|].
    eapply (sessions_refer_step (db w)); [|reflexivity| |exact H].
    + auto.
    + constructor; [|constructor]. exists u. split; [|reflexivity].
      cbn [user]. apply find_some in Hu. apply Hu.
Qed.

Lemma app_keeps_references_witness :
  sessions_refer (db w0)
  /\ sessions_refer (db (snd (app (POST_auth_register alice_request) w0))).
Proof.
  assert (H : sessions_refer (db w0)) by constructor.
  split; [exact H|].
  exact (app_keeps_references (POST_auth_register alice_request) w0 H).
Defined.


